(** * go-psi: pressure-stall monitoring ([package psi])

    A shallow embedding of [Config.Check], [Config.Explain] and [Monitor],
    and the properties of them that the specification states.

    Pure code ([Check], [Explain], the formatting of the control line) is
    embedded as functions.  [Monitor] talks to the kernel and to the caller's
    callback and may loop for ever, so it is embedded as an interaction tree
    over the calls it makes; a run is that tree executed against an
    environment which answers every call. *)

From Stdlib Require Import ZArith List String Ascii Bool Lia DecimalString.
From ITree Require Import ITree.
Import ListNotations.

Local Open Scope string_scope.
Local Open Scope Z_scope.

(* ===================================================================== *)
(** * The Go runtime and library, as far as the package uses it          *)
(* ===================================================================== *)

(** ** Errors *)

(** Go's [error] values.  [err != nil] and [err == ErrStopMonitoring]
    compare interface values: two errors built by different calls of
    [fmt.Errorf] are different values even when their texts agree.  So the
    package-level value [ErrStopMonitoring], built once from the text
    "psi: stop it", is a constructor of its own, and [Errorf "psi: stop it"]
    is not equal to it.  [PathError] stands for the errors of package [os]
    and [Errno] for those of a system call.  A Go [error] that may be [nil]
    is an [option error], [None] being [nil]. *)
Inductive error : Type :=
| ErrStopMonitoring
| Errorf (msg : string)
| PathError (op path : string) (errno : Z)
| Errno (errno : Z).

Definition error_eq_dec (a b : error) : {a = b} + {a <> b}.
Proof. decide equality; solve [apply string_dec | apply Z.eq_dec]. Defined.

Definition error_eqb (a b : error) : bool :=
  if error_eq_dec a b then true else false.

(** ** [time.Duration] *)

(** A [time.Duration] is an [int64] count of nanoseconds. *)
Definition Duration := Z.

Definition Nanosecond : Duration := 1.
Definition Microsecond : Duration := 1000 * Nanosecond.
Definition Millisecond : Duration := 1000 * Microsecond.
Definition Second : Duration := 1000 * Millisecond.

(** Conversions between [int64] and [uint64] keep the 64 bits. *)
Definition uint64 (z : Z) : Z := z mod 2 ^ 64.

(** [Duration.Microseconds]: [int64(d) / 1e3], Go's integer division,
    which truncates towards zero. *)
Definition Microseconds (d : Duration) : Z := Z.quot d 1000.

(** Decimal rendering of an integer, a leading [-] when negative: what the
    verb [%d] prints and what [fmtInt] writes for an unsigned value. *)
Definition FormatInt (z : Z) : string := NilZero.string_of_int (Z.to_int z).

(** [time.fmtFrac v prec]: the fraction of [v / 10^prec] without trailing
    zeros, with its decimal point (nothing at all when the fraction is 0),
    and [v / 10^prec].  The loop body runs [prec] times, from the last
    digit to the first. *)
Fixpoint fmtFrac_loop (prec : nat) (v : Z) (print : bool) (buf : string)
  : Z * bool * string :=
  match prec with
  | O => (v, print, buf)
  | S prec' =>
    let digit := v mod 10 in
    let print := print || negb (Z.eqb digit 0) in
    let buf := if print then FormatInt digit ++ buf else buf in
    fmtFrac_loop prec' (v / 10) print buf
  end.

Definition fmtFrac (v : Z) (prec : nat) : string * Z :=
  let '(v', print, buf) := fmtFrac_loop prec v false "" in
  (if print then "." ++ buf else buf, v').

(** The two bytes of the micro sign in UTF-8. *)
Definition micro : string := String "194"%char (String "181"%char "").

(** [Duration.String]: below one second the value is printed in the
    largest of ns, µs and ms that does not exceed it; from one second on as
    hours, minutes and seconds, the leading zero units left out. *)
Definition Duration_String (d : Duration) : string :=
  let neg := d <? 0 in
  let u := uint64 d in
  let u := if neg then uint64 (- u) else u in
  let body :=
    if u <? uint64 Second then
      if Z.eqb u 0 then "0s"
      else
        let '(prec, unit) :=
          if u <? uint64 Microsecond then (0%nat, "ns")
          else if u <? uint64 Millisecond then (3%nat, micro ++ "s")
          else (6%nat, "ms") in
        let '(frac, u) := fmtFrac u prec in
        FormatInt u ++ frac ++ unit
    else
      let '(frac, u) := fmtFrac u 9 in
      let secs := FormatInt (u mod 60) ++ frac ++ "s" in
      let u := u / 60 in
      if 0 <? u then
        let mins := FormatInt (u mod 60) ++ "m" in
        let u := u / 60 in
        if 0 <? u then FormatInt u ++ "h" ++ mins ++ secs
        else mins ++ secs
      else secs in
  if neg then "-" ++ body else body.

(** ** [fmt.Sprintf] *)

(** The operands the package passes to [fmt]: strings (also of a named
    string type) and [int64] values. *)
Inductive operand : Type :=
| Str (s : string)
| Int (z : Z).

(** [Sprintf format args], for what the package uses: the verb [%s] prints
    the next operand when it is a string, [%d] prints it in decimal when it
    is an integer, every other character is copied.  A verb that does not
    find an operand of its kind is outside this model and is copied as it
    stands. *)
Fixpoint Sprintf (format : string) (args : list operand) : string :=
  match format with
  | EmptyString => EmptyString
  | String "%"%char (String "s"%char rest) =>
    match args with
    | Str s :: args' => s ++ Sprintf rest args'
    | _ => String "%"%char (String "s"%char (Sprintf rest args))
    end
  | String "%"%char (String "d"%char rest) =>
    match args with
    | Int z :: args' => FormatInt z ++ Sprintf rest args'
    | _ => String "%"%char (String "d"%char (Sprintf rest args))
    end
  | String c rest => String c (Sprintf rest args)
  end.

(** The escapes [\n] and [\x00] of Go's string literals. *)
Definition LF : string := String "010"%char "".
Definition NUL : string := String "000"%char "".

(* ===================================================================== *)
(** * Configuration                                                      *)
(* ===================================================================== *)

(** Resource to monitor PSI backpressure on.  The package declares the
    values of [Resource] and [StallType] as variables; nothing in it
    assigns to them, and they stand here for their initial values. *)
Definition Resource := string.

Definition ResourceCPU : Resource := "cpu".
Definition ResourceIO : Resource := "io".
Definition ResourceMemory : Resource := "memory".

(** StallType represents how we measure "stall" during the time window. *)
Definition StallType := string.

Definition StallTypeFull : StallType := "full".
Definition StallTypeSome : StallType := "some".

(** Config sets the parameters used to monitor backpressure on a resource.
    ([Type] is reserved in Rocq, hence the prefix of the first two
    fields.) *)
Record Config : Type := mkConfig {
  c_Resource : Resource;
  c_Type : StallType;
  StallWindowDuration : Duration;
  WindowDuration : Duration
}.

(** [Config.Check]: four comparisons, each returning at once. *)
Definition Check (c : Config) : option error :=
  if WindowDuration c <? Millisecond * 500 then
    Some (Errorf "Minmum WindowDuration is 500ms")
  else if WindowDuration c >? Second * 10 then
    Some (Errorf "Maximum WindowDuration is 10s")
  else if StallWindowDuration c <? Millisecond * 50 then
    Some (Errorf "Minmum StallWindowDuration is 50ms")
  else if StallWindowDuration c >? Second then
    Some (Errorf "Maximum StallWindowDuration is 1s")
  else None.

(** The [switch] of [Config.Explain]: the first matching case wins, no case
    leaves the initial value. *)
Definition Explain_name (t : StallType) : string :=
  if String.eqb t StallTypeSome then "at least one"
  else if String.eqb t StallTypeFull then "all of"
  else "UNKNOWN".

(** [Config.Explain]. *)
Definition Explain (c : Config) : string :=
  let name := Explain_name (c_Type c) in
  Sprintf
    ("%s of the tasks in the queue are waiting for %s for longer than %s measured within a %s time window" ++ LF)
    [Str name;
     Str (c_Resource c);
     Str (Duration_String (StallWindowDuration c));
     Str (Duration_String (WindowDuration c))].

(* ===================================================================== *)
(** * The calls [Monitor] makes                                           *)
(* ===================================================================== *)

(** An open [*os.File], named by its descriptor ([fd.Fd()]). *)
Definition File := Z.

(** A callback is a Go closure of type [func() error].  What it does when
    called belongs to the environment; the program only holds it. *)
Definition MonitorCallback := nat.

(** Constants of package [syscall], with their values on Linux. *)
Definition O_RDWR : Z := 2.
Definition O_NONBLOCK : Z := 2048.
Definition EPOLLPRI : Z := 2.

(** The conversion [int32(x)]. *)
Definition int32 (z : Z) : Z := (z + 2 ^ 31) mod 2 ^ 32 - 2 ^ 31.

(** [unix.PollFd], without the field the kernel fills in. *)
Record PollFd : Type := mkPollFd { Fd : Z; Events : Z }.

(** The calls that leave the package, each with the type of what it
    returns: [os.OpenFile] a file or an error, [File.Write] and
    [unix.Poll] a count and an error, the callback and [File.Close] an
    error. *)
Variant psiE : Type -> Type :=
| OpenFile (name : string) (flag perm : Z) : psiE (File + error)
| Write (fd : File) (b : string) : psiE (Z * option error)
| Poll (fds : list PollFd) (timeout : Z) : psiE (Z * option error)
| Invoke (cb : MonitorCallback) : psiE (option error)
| Close (fd : File) : psiE (option error).

Import ITreeNotations.
Local Open Scope itree_scope.

(** [fmt.Fprintf] formats its operands and hands the text to the writer
    in one [Write]. *)
Definition Fprintf (fd : File) (format : string) (args : list operand)
  : itree psiE (Z * option error) :=
  ITree.trigger (Write fd (Sprintf format args)).

(** [defer call]: [call] runs when the function returns, whatever the
    [return] taken in [body], and its result is dropped. *)
Definition defer {R X : Type} (call : psiE X) (body : itree psiE R)
  : itree psiE R :=
  r <- body ;; _ <- ITree.trigger call ;; Ret r.

(** How control leaves a [for] loop: by [break], or by a [return] of the
    enclosing function. *)
Variant loop_exit : Type :=
| Break
| Return (err : error).

(** [for { body }]: [body] answers [inl tt] to go round again, [inr x] to
    leave the loop. *)
Definition for_ever {X : Type} (body : itree psiE (unit + X)) : itree psiE X :=
  ITree.iter (fun _ : unit => body) tt.

(* ===================================================================== *)
(** * [Monitor]                                                           *)
(* ===================================================================== *)

(** [Monitor] in the version of the package that declares
    [MonitorCallback] and [ErrStopMonitoring]: the callback leaves the
    loop by returning that value. *)
Module WithStop.

(** One round of the loop. *)
Definition Monitor_body (fd : File) (cb : MonitorCallback)
  : itree psiE (unit + loop_exit) :=
  '(_, err) <- ITree.trigger
                 (Poll [mkPollFd (int32 fd) EPOLLPRI] (-1)) ;;
  match err with
  | Some err => Ret (inr (Return err))
  | None =>
    err <- ITree.trigger (Invoke cb) ;;
    match err with
    | Some err =>
      if error_eqb err ErrStopMonitoring then Ret (inr Break)
      else Ret (inr (Return err))
    | None => Ret (inl tt)
    end
  end.

Definition Monitor (config : Config) (cb : MonitorCallback)
  : itree psiE (option error) :=
  match Check config with
  | Some err => Ret (Some err)
  | None =>
    r <- ITree.trigger
           (OpenFile (Sprintf "/proc/pressure/%s" [Str (c_Resource config)])
                     (Z.lor O_RDWR O_NONBLOCK) 0) ;;
    match r with
    | inr err => Ret (Some err)
    | inl fd =>
      defer (Close fd)
        ('(_, err) <- Fprintf fd ("%s %d %d" ++ NUL)
                        [Str (c_Type config);
                         Int (Microseconds (StallWindowDuration config));
                         Int (Microseconds (WindowDuration config))] ;;
         match err with
         | Some err => Ret (Some err)
         | None =>
           x <- for_ever (Monitor_body fd cb) ;;
           match x with
           | Return err => Ret (Some err)
           | Break => Ret None
           end
         end)
    end
  end.

End WithStop.

(** [Monitor] in the version of [psi.go], which declares neither: the
    loop is left only by a [return] of an error. *)
Module PsiGo.

Definition Monitor_body (fd : File) (cb : MonitorCallback)
  : itree psiE (unit + error) :=
  '(_, err) <- ITree.trigger
                 (Poll [mkPollFd (int32 fd) EPOLLPRI] (-1)) ;;
  match err with
  | Some err => Ret (inr err)
  | None =>
    err <- ITree.trigger (Invoke cb) ;;
    match err with
    | Some err => Ret (inr err)
    | None => Ret (inl tt)
    end
  end.

Definition Monitor (config : Config) (cb : MonitorCallback)
  : itree psiE (option error) :=
  match Check config with
  | Some err => Ret (Some err)
  | None =>
    r <- ITree.trigger
           (OpenFile (Sprintf "/proc/pressure/%s" [Str (c_Resource config)])
                     (Z.lor O_RDWR O_NONBLOCK) 0) ;;
    match r with
    | inr err => Ret (Some err)
    | inl fd =>
      defer (Close fd)
        ('(_, err) <- Fprintf fd ("%s %d %d" ++ NUL)
                        [Str (c_Type config);
                         Int (Microseconds (StallWindowDuration config));
                         Int (Microseconds (WindowDuration config))] ;;
         match err with
         | Some err => Ret (Some err)
         | None =>
           err <- for_ever (Monitor_body fd cb) ;;
           Ret (Some err)
         end)
    end
  end.

End PsiGo.

(* ===================================================================== *)
(** * Runs                                                                *)
(* ===================================================================== *)

(** A call together with what it returned. *)
Inductive event : Type :=
| EvOpenFile (name : string) (flag perm : Z) (res : File + error)
| EvWrite (fd : File) (b : string) (res : Z * option error)
| EvPoll (fds : list PollFd) (timeout : Z) (res : Z * option error)
| EvInvoke (cb : MonitorCallback) (res : option error)
| EvClose (fd : File) (res : option error).

Definition observed {X : Type} (e : psiE X) : X -> event :=
  match e in psiE X return X -> event with
  | OpenFile name flag perm => EvOpenFile name flag perm
  | Write fd b => EvWrite fd b
  | Poll fds timeout => EvPoll fds timeout
  | Invoke cb => EvInvoke cb
  | Close fd => EvClose fd
  end.

(** The environment: kernel, file system and callback.  It answers each
    call knowing everything that happened before, so a callback with
    state of its own, or a kernel whose answers change, is a [World]. *)
Definition World : Type := forall X : Type, list event -> psiE X -> X.

(** Where a run stands: the calls made so far with their answers, the
    fuel not used, and the value returned if the program has returned.
    For [Monitor], [returned o = Some None] says that it has returned
    [nil], [returned o = Some (Some e)] that it has returned the error
    [e], and [returned o = None] that it has not returned yet. *)
Record outcome (R : Type) : Type := Outcome {
  history : list event;
  fuel_left : nat;
  returned : option R
}.
Arguments Outcome {R} _ _ _.
Arguments history {R} _.
Arguments fuel_left {R} _.
Arguments returned {R} _.

(** [run fuel w h t]: execute [t] in world [w] after the history [h].
    Each call and each silent step of a loop costs one unit of fuel; the
    run stops where the fuel ends. *)
Fixpoint run {R : Type} (fuel : nat) (w : World) (h : list event)
  (t : itree psiE R) {struct fuel} : outcome R :=
  match observe t with
  | RetF r => Outcome h fuel (Some r)
  | TauF t' =>
    match fuel with
    | O => Outcome h O None
    | S fuel' => run fuel' w h t'
    end
  | VisF e k =>
    match fuel with
    | O => Outcome h O None
    | S fuel' =>
      let x := w _ h e in
      run fuel' w (h ++ [observed e x])%list (k x)
    end
  end.

(* ===================================================================== *)
(** * Reading a history                                                   *)
(* ===================================================================== *)

(** The file [Monitor] opens and the line it writes, as the two calls of
    [fmt] in [Monitor] build them. *)
Definition pressure_path (c : Config) : string :=
  Sprintf "/proc/pressure/%s" [Str (c_Resource c)].

Definition control_line (c : Config) : string :=
  Sprintf ("%s %d %d" ++ NUL)
    [Str (c_Type c);
     Int (Microseconds (StallWindowDuration c));
     Int (Microseconds (WindowDuration c))].

(** The one descriptor [Monitor] waits on. *)
Definition pollfds (fd : File) : list PollFd := [mkPollFd (int32 fd) EPOLLPRI].

(** The error a call reported to [Monitor], the stop value of a callback
    not being one.  The result of [Close] is dropped by [defer]. *)
Definition failure_of (ev : event) : option error :=
  match ev with
  | EvOpenFile _ _ _ (inr e) => Some e
  | EvWrite _ _ (_, Some e) => Some e
  | EvPoll _ _ (_, Some e) => Some e
  | EvInvoke _ (Some e) => if error_eqb e ErrStopMonitoring then None else Some e
  | _ => None
  end.

Fixpoint failures (h : list event) : list error :=
  match h with
  | [] => []
  | ev :: h' =>
    match failure_of ev with
    | Some e => e :: failures h'
    | None => failures h'
    end
  end.

(** The first thing that went wrong: the verdict of [Check], else the
    first failure among the calls. *)
Definition first_failure (c : Config) (h : list event) : option error :=
  match Check c with
  | Some e => Some e
  | None => hd_error (failures h)
  end.

(** The files closed, the lines written, the number of times [cb] was
    called. *)
Fixpoint closes (h : list event) : list File :=
  match h with
  | [] => []
  | EvClose fd _ :: h' => fd :: closes h'
  | _ :: h' => closes h'
  end.

Fixpoint writes (h : list event) : list (File * string) :=
  match h with
  | [] => []
  | EvWrite fd b _ :: h' => (fd, b) :: writes h'
  | _ :: h' => writes h'
  end.

Fixpoint invocations (h : list event) : nat :=
  match h with
  | [] => O
  | EvInvoke _ _ :: h' => S (invocations h')
  | _ :: h' => invocations h'
  end.

(** What the loop of [WithStop.Monitor] can have done when a run stops,
    and how it was left, if it was: rounds in which the wait and the
    callback both succeeded, then a failed wait, or a callback error, or
    nothing more because the fuel ended. *)
Inductive loop_trace (fd : File) (cb : MonitorCallback)
  : list event -> option loop_exit -> Prop :=
| lt_waiting : loop_trace fd cb [] None
| lt_poll_failed n e :
    loop_trace fd cb [EvPoll (pollfds fd) (-1) (n, Some e)] (Some (Return e))
| lt_ready n :
    loop_trace fd cb [EvPoll (pollfds fd) (-1) (n, None)] None
| lt_stop n :
    loop_trace fd cb
      [EvPoll (pollfds fd) (-1) (n, None); EvInvoke cb (Some ErrStopMonitoring)]
      (Some Break)
| lt_callback_failed n e :
    e <> ErrStopMonitoring ->
    loop_trace fd cb
      [EvPoll (pollfds fd) (-1) (n, None); EvInvoke cb (Some e)]
      (Some (Return e))
| lt_round n tr x :
    loop_trace fd cb tr x ->
    loop_trace fd cb
      (EvPoll (pollfds fd) (-1) (n, None) :: EvInvoke cb None :: tr) x.

(** The value [Monitor] returns once its loop is left. *)
Definition after_loop (x : loop_exit) : option error :=
  match x with
  | Return err => Some err
  | Break => None
  end.

(** The two calls before the loop, with their answers. *)
Definition opened (c : Config) (r : File + error) : event :=
  EvOpenFile (pressure_path c) (Z.lor O_RDWR O_NONBLOCK) 0 r.

Definition written (c : Config) (fd : File) (a : Z * option error) : event :=
  EvWrite fd (control_line c) a.

(** What [WithStop.Monitor] as a whole can have done when a run stops,
    and what it returned, if it has: one case for each place where a run
    can end or run out of fuel. *)
Inductive Monitor_trace (c : Config) (cb : MonitorCallback)
  : list event -> option (option error) -> Prop :=
| mt_invalid e :
    Check c = Some e ->
    Monitor_trace c cb [] (Some (Some e))
| mt_start :
    Check c = None ->
    Monitor_trace c cb [] None
| mt_open_failed e :
    Check c = None ->
    Monitor_trace c cb [opened c (inr e)] (Some (Some e))
| mt_opened fd :
    Check c = None ->
    Monitor_trace c cb [opened c (inl fd)] None
| mt_write_failed fd n e :
    Check c = None ->
    Monitor_trace c cb [opened c (inl fd); written c fd (n, Some e)] None
| mt_write_failed_closed fd n e res :
    Check c = None ->
    Monitor_trace c cb
      [opened c (inl fd); written c fd (n, Some e); EvClose fd res]
      (Some (Some e))
| mt_loop fd n tr x :
    Check c = None ->
    loop_trace fd cb tr x ->
    Monitor_trace c cb
      (opened c (inl fd) :: written c fd (n, None) :: tr) None
| mt_closed fd n tr x res :
    Check c = None ->
    loop_trace fd cb tr (Some x) ->
    Monitor_trace c cb
      (opened c (inl fd) :: written c fd (n, None) :: tr ++ [EvClose fd res])%list
      (Some (after_loop x)).

(** Every character of a string passes a test. *)
Fixpoint string_forall (P : ascii -> bool) (s : string) : bool :=
  match s with
  | EmptyString => true
  | String a s' => P a && string_forall P s'
  end.

(** A decimal digit or a minus sign. *)
Definition is_decimal (a : ascii) : bool :=
  let n := nat_of_ascii a in
  ((48 <=? n)%nat && (n <=? 57)%nat) || (n =? 45)%nat.

(** Neither the NUL byte nor a newline. *)
Definition not_NUL_LF (a : ascii) : bool :=
  negb (Ascii.eqb a "000"%char) && negb (Ascii.eqb a "010"%char).

(* ===================================================================== *)
(** * The specification's wording, and sample inputs                      *)
(* ===================================================================== *)

(** The specification's reading of [Check]: four checks in a fixed order,
    the first failing one giving the error.  Each entry pairs the test
    that makes a check fail with the error of that check. *)
Definition bound_checks (c : Config) : list (bool * error) :=
  [ (WindowDuration c <? Millisecond * 500,
     Errorf "Minmum WindowDuration is 500ms");
    (WindowDuration c >? Second * 10,
     Errorf "Maximum WindowDuration is 10s");
    (StallWindowDuration c <? Millisecond * 50,
     Errorf "Minmum StallWindowDuration is 50ms");
    (StallWindowDuration c >? Second,
     Errorf "Maximum StallWindowDuration is 1s") ].

Fixpoint first_failing (checks : list (bool * error)) : option error :=
  match checks with
  | [] => None
  | (true, e) :: _ => Some e
  | (false, _) :: rest => first_failing rest
  end.

(** The sentence of [Explain] after its first words, up to the bytes
    [ending] that close it. *)
Definition Explain_rest (c : Config) (ending : string) : string :=
  " of the tasks in the queue are waiting for " ++ c_Resource c ++
  " for longer than " ++ Duration_String (StallWindowDuration c) ++
  " measured within a " ++ Duration_String (WindowDuration c) ++
  " time window" ++ ending.

(** The configuration of the example program ([main]). *)
Definition example_config : Config :=
  mkConfig ResourceCPU StallTypeSome (Z.quot Second 10) Second.

(** A kernel on which every call succeeds, with a callback that returns
    [nil] twice and then asks to stop. *)
Definition stop_on_third_call : World := fun X h e =>
  match e in psiE X return X with
  | OpenFile _ _ _ => inl 3
  | Write _ b => (Z.of_nat (String.length b), None)
  | Poll _ _ => (1, None)
  | Invoke _ => if (invocations h <? 2)%nat then None else Some ErrStopMonitoring
  | Close _ => None
  end.

(* ===================================================================== *)
(** * More ways to read a history, and the example program               *)
(* ===================================================================== *)

(** The files opened, with the flags and the permission asked for. *)
Fixpoint opens (h : list event) : list (string * Z * Z) :=
  match h with
  | [] => []
  | EvOpenFile name flag perm _ :: h' => (name, flag, perm) :: opens h'
  | _ :: h' => opens h'
  end.

(** The waits made, each with the descriptors and the timeout given. *)
Fixpoint polls (h : list event) : list (list PollFd * Z) :=
  match h with
  | [] => []
  | EvPoll fds timeout _ :: h' => (fds, timeout) :: polls h'
  | _ :: h' => polls h'
  end.

(** The number of waits that returned without an error. *)
Fixpoint ready (h : list event) : nat :=
  match h with
  | [] => O
  | EvPoll _ _ (_, None) :: h' => S (ready h')
  | _ :: h' => ready h'
  end.

(** The callbacks that were called. *)
Fixpoint invoked (h : list event) : list MonitorCallback :=
  match h with
  | [] => []
  | EvInvoke cb _ :: h' => cb :: invoked h'
  | _ :: h' => invoked h'
  end.

(** A decimal digit. *)
Definition is_digit (a : ascii) : bool :=
  let n := nat_of_ascii a in (48 <=? n)%nat && (n <=? 57)%nat.

(** What the [Monitor] of [psi.go] returns where the other version
    returns [r]: the same error, and the stop value itself where the other
    returns [nil]. *)
Definition stop_as_error (r : option error) : option error :=
  match r with
  | Some e => Some e
  | None => Some ErrStopMonitoring
  end.

(** How the example program ends: [main] returns, or it panics with the
    error [Monitor] returned. *)
Variant exit_status : Type :=
| Exited
| Panicked (err : error).

(** The closure [main] passes to [Monitor].  It prints a line and returns
    [nil]; the printing is no call of the package and leaves no trace in a
    history, the [nil] is what a world answers when the closure is called
    ([answers_as_main]). *)
Definition main_callback : MonitorCallback := 0%nat.

Definition answers_as_main (w : World) : Prop :=
  forall h : list event, w _ h (Invoke main_callback) = None.

(** [main] of the example program. *)
Definition main : itree psiE exit_status :=
  err <- WithStop.Monitor
           (mkConfig ResourceCPU StallTypeSome (Z.quot Second 10) Second)
           main_callback ;;
  match err with
  | Some err => Ret (Panicked err)
  | None => Ret Exited
  end.

(** Sample worlds: one where the file cannot be opened, one where the
    write fails, one where every call succeeds and the callback always
    returns [nil]. *)
Definition open_fails : World := fun X h e =>
  match e in psiE X return X with
  | OpenFile name _ _ => inr (PathError "open" name 2)
  | Write _ b => (Z.of_nat (String.length b), None)
  | Poll _ _ => (1, None)
  | Invoke _ => None
  | Close _ => None
  end.

Definition write_fails : World := fun X h e =>
  match e in psiE X return X with
  | OpenFile _ _ _ => inl 3
  | Write _ _ => (0, Some (PathError "write" "/proc/pressure/cpu" 22))
  | Poll _ _ => (1, None)
  | Invoke _ => None
  | Close _ => None
  end.

Definition never_stops : World := fun X h e =>
  match e in psiE X return X with
  | OpenFile _ _ _ => inl 3
  | Write _ b => (Z.of_nat (String.length b), None)
  | Poll _ _ => (1, None)
  | Invoke _ => None
  | Close _ => None
  end.

(** A history records what the world answered: each call in it carries
    the answer of the world to that call after the calls before it. *)
Definition answered (w : World) (h0 : list event) (ev : event) : Prop :=
  match ev with
  | EvOpenFile name flag perm r => r = w _ h0 (OpenFile name flag perm)
  | EvWrite fd b a => a = w _ h0 (Write fd b)
  | EvPoll fds timeout a => a = w _ h0 (Poll fds timeout)
  | EvInvoke cb r => r = w _ h0 (Invoke cb)
  | EvClose fd r => r = w _ h0 (Close fd)
  end.

Definition consistent (w : World) (h : list event) : Prop :=
  forall h0 ev h1, h = (h0 ++ ev :: h1)%list -> answered w h0 ev.

(* ===================================================================== *)
(** * Facts about errors                                                  *)
(* ===================================================================== *)

Lemma error_eqb_eq a b : error_eqb a b = true <-> a = b.
Proof.
  unfold error_eqb; destruct (error_eq_dec a b); split; congruence.
Qed.

Lemma error_eqb_neq a b : error_eqb a b = false <-> a <> b.
Proof.
  unfold error_eqb; destruct (error_eq_dec a b); split; congruence.
Qed.

(* ===================================================================== *)
(** * How runs compose                                                    *)
(* ===================================================================== *)

(** One step of [ITree.bind] and of [ITree.iter]. *)
Lemma observe_bind {A B} (t : itree psiE A) (k : A -> itree psiE B) :
  observe (ITree.bind t k) =
  observe (match observe t with
           | RetF r => k r
           | TauF t' => Tau (ITree.bind t' k)
           | VisF e ke => Vis e (fun x => ITree.bind (ke x) k)
           end).
Proof. reflexivity. Qed.

Lemma observe_iter {I X} (body : I -> itree psiE (I + X)) (i : I) :
  observe (ITree.iter body i) =
  observe (ITree.bind (body i)
             (fun lr => match lr with
                        | inl l => Tau (ITree.iter body l)
                        | inr r => Ret r
                        end)).
Proof. reflexivity. Qed.

Section RunFacts.

Variable w : World.

Lemma run_eq {R} fuel h (t : itree psiE R) :
  run fuel w h t =
  match observe t with
  | RetF r => Outcome h fuel (Some r)
  | TauF t' =>
    match fuel with
    | O => Outcome h O None
    | S fuel' => run fuel' w h t'
    end
  | VisF e k =>
    match fuel with
    | O => Outcome h O None
    | S fuel' => run fuel' w (h ++ [observed e (w _ h e)])%list (k (w _ h e))
    end
  end.
Proof. destruct fuel; reflexivity. Qed.

(** A run looks at a tree only through [observe]. *)
Lemma run_observe {R} fuel h (t u : itree psiE R) :
  observe t = observe u -> run fuel w h t = run fuel w h u.
Proof. intros E. rewrite (run_eq fuel h t), (run_eq fuel h u), E. reflexivity. Qed.

Lemma run_Ret {R} fuel h (r : R) :
  run fuel w h (Ret r) = Outcome h fuel (Some r).
Proof. rewrite run_eq. reflexivity. Qed.

Lemma run_trigger {X} fuel h (e : psiE X) :
  run (S fuel) w h (ITree.trigger e) =
  Outcome (h ++ [observed e (w _ h e)])%list fuel (Some (w _ h e)).
Proof. cbn. rewrite run_eq. reflexivity. Qed.

(** Sequencing: the continuation starts where the first part stopped,
    with the fuel the first part left. *)
Lemma run_bind {A B} fuel h (t : itree psiE A) (k : A -> itree psiE B) :
  run fuel w h (ITree.bind t k) =
  match run fuel w h t with
  | Outcome h1 fuel1 (Some x) => run fuel1 w h1 (k x)
  | Outcome h1 fuel1 None => Outcome h1 fuel1 None
  end.
Proof.
  revert h t. induction fuel as [|fuel IH]; intros h t.
  - rewrite (run_eq O h (ITree.bind t k)), (run_eq O h t), observe_bind.
    destruct (observe t) as [r|t'|X e ke]; reflexivity.
  - rewrite (run_eq (S fuel) h (ITree.bind t k)), (run_eq (S fuel) h t), observe_bind.
    destruct (observe t) as [r|t'|X e ke]; cbn.
    + reflexivity.
    + apply IH.
    + apply IH.
Qed.

(** One round of a loop, then the loop again after a silent step. *)
Lemma run_for_ever {X} fuel h (body : itree psiE (unit + X)) :
  run fuel w h (for_ever body) =
  match run fuel w h body with
  | Outcome h1 fuel1 (Some (inr x)) => Outcome h1 fuel1 (Some x)
  | Outcome h1 fuel1 (Some (inl _)) =>
    match fuel1 with
    | O => Outcome h1 O None
    | S fuel2 => run fuel2 w h1 (for_ever body)
    end
  | Outcome h1 fuel1 None => Outcome h1 fuel1 None
  end.
Proof.
  unfold for_ever at 1.
  rewrite (run_observe fuel h _ _ (observe_iter _ tt)), run_bind.
  destruct (run fuel w h body) as [h1 fuel1 [[[]|x]|]].
  - destruct fuel1; reflexivity.
  - apply run_Ret.
  - reflexivity.
Qed.

(** A run that has returned is not changed by more fuel. *)
Lemma run_more {R} extra fuel h (t : itree psiE R) r :
  returned (run fuel w h t) = Some r ->
  run (fuel + extra) w h t =
  Outcome (history (run fuel w h t)) (fuel_left (run fuel w h t) + extra) (Some r).
Proof.
  revert h t. induction fuel as [|fuel IH]; intros h t;
    rewrite (run_eq _ h t), (run_eq (_ + extra) h t).
  - destruct (observe t); cbn; congruence.
  - destruct (observe t); cbn; [congruence | |]; apply IH.
Qed.

(** History only grows. *)
Lemma run_history {R} fuel h (t : itree psiE R) :
  exists tr, history (run fuel w h t) = (h ++ tr)%list.
Proof.
  revert h t. induction fuel as [|fuel IH]; intros h t; rewrite run_eq.
  - exists []. rewrite app_nil_r. destruct (observe t); reflexivity.
  - destruct (observe t) as [r|t'|X e k]; cbn.
    + exists []. now rewrite app_nil_r.
    + apply IH.
    + destruct (IH (h ++ [observed e (w X h e)])%list (k (w X h e))) as [tr E].
      exists (observed e (w X h e) :: tr). rewrite E, <- app_assoc. reflexivity.
Qed.

(** One more unit of fuel only adds to the history. *)
Lemma run_step_history {R} fuel h (t : itree psiE R) :
  exists tr,
    history (run (S fuel) w h t) = (history (run fuel w h t) ++ tr)%list.
Proof.
  revert h t. induction fuel as [|fuel IH]; intros h t.
  - destruct (run_history 1 h t) as [tr E]. exists tr. rewrite E.
    rewrite (run_eq O). now destruct (observe t).
  - rewrite (run_eq (S (S fuel))), (run_eq (S fuel)).
    destruct (observe t) as [r|t'|X e k].
    + exists []. now rewrite app_nil_r.
    + apply IH.
    + apply IH.
Qed.

End RunFacts.

(* ===================================================================== *)
(** * Facts about histories                                               *)
(* ===================================================================== *)

Lemma failures_app h1 h2 : failures (h1 ++ h2) = (failures h1 ++ failures h2)%list.
Proof.
  induction h1 as [|ev h1 IH]; cbn; [reflexivity|].
  destruct (failure_of ev); cbn; now rewrite IH.
Qed.

Lemma closes_app h1 h2 : closes (h1 ++ h2) = (closes h1 ++ closes h2)%list.
Proof.
  induction h1 as [|ev h1 IH]; cbn; [reflexivity|].
  destruct ev; cbn; now rewrite IH.
Qed.

Lemma writes_app h1 h2 : writes (h1 ++ h2) = (writes h1 ++ writes h2)%list.
Proof.
  induction h1 as [|ev h1 IH]; cbn; [reflexivity|].
  destruct ev; cbn; now rewrite IH.
Qed.

Lemma error_eqb_refl e : error_eqb e e = true.
Proof. now apply error_eqb_eq. Qed.

Section LoopTraces.

Variable fd : File.
Variable cb : MonitorCallback.

(** The loop closes nothing and writes nothing. *)
Lemma loop_trace_closes tr x : loop_trace fd cb tr x -> closes tr = [].
Proof. induction 1; cbn; auto. Qed.

Lemma loop_trace_writes tr x : loop_trace fd cb tr x -> writes tr = [].
Proof. induction 1; cbn; auto. Qed.

(** The loop sees one failure at most, and leaves with it. *)
Lemma loop_trace_failures tr x :
  loop_trace fd cb tr x ->
  failures tr = match x with Some (Return e) => [e] | _ => [] end.
Proof.
  induction 1 as [|n e|n|n|n e Hne|n tr x _ IH]; cbn; auto.
  apply error_eqb_neq in Hne. now rewrite Hne.
Qed.

(** While the loop goes on, every call of the callback has returned
    [nil]. *)
Lemma loop_trace_running tr r :
  loop_trace fd cb tr None -> In (EvInvoke cb r) tr -> r = None.
Proof.
  intros H. remember None as x eqn:Ex. revert Ex.
  induction H as [|n e|n|n|n e Hne|n tr x _ IH]; intros Ex Hin;
    try discriminate; cbn in Hin.
  - contradiction.
  - destruct Hin as [Hin|[]]. discriminate.
  - destruct Hin as [Hin|[Hin|Hin]]; [discriminate | congruence | auto].
Qed.

(** How the loop was left: the last call is the one that ended it. *)
Lemma loop_trace_last tr x :
  loop_trace fd cb tr (Some x) ->
  exists tr0 ev,
    tr = (tr0 ++ [ev])%list /\
    (forall r, In (EvInvoke cb r) tr0 -> r = None) /\
    ((exists n e, ev = EvPoll (pollfds fd) (-1) (n, Some e) /\ x = Return e) \/
     (ev = EvInvoke cb (Some ErrStopMonitoring) /\ x = Break) \/
     (exists e, e <> ErrStopMonitoring /\
                ev = EvInvoke cb (Some e) /\ x = Return e)).
Proof.
  intros H. remember (Some x) as o eqn:Eo. revert x Eo.
  induction H as [|n e|n|n|n e Hne|n tr o _ IH]; intros x Eo;
    try discriminate.
  - injection Eo as <-. exists [], (EvPoll (pollfds fd) (-1) (n, Some e)).
    split; [reflexivity|]. split; [intros r []|]. left; eauto.
  - injection Eo as <-.
    exists [EvPoll (pollfds fd) (-1) (n, None)], (EvInvoke cb (Some ErrStopMonitoring)).
    split; [reflexivity|]. split; [intros r [Hin|[]]; discriminate|]. right; left; auto.
  - injection Eo as <-.
    exists [EvPoll (pollfds fd) (-1) (n, None)], (EvInvoke cb (Some e)).
    split; [reflexivity|]. split; [intros r [Hin|[]]; discriminate|]. right; right; eauto.
  - destruct (IH x Eo) as (tr0 & ev & -> & Hnil & Hev).
    exists (EvPoll (pollfds fd) (-1) (n, None) :: EvInvoke cb None :: tr0), ev.
    split; [reflexivity|]. split; [|exact Hev].
    intros r [Hin|[Hin|Hin]]; [discriminate | congruence | auto].
Qed.

(** A callback error in the history ended the loop, and decides how. *)
Lemma loop_trace_error tr o e :
  loop_trace fd cb tr o ->
  In (EvInvoke cb (Some e)) tr ->
  o = Some (if error_eqb e ErrStopMonitoring then Break else Return e) /\
  exists tr0, tr = (tr0 ++ [EvInvoke cb (Some e)])%list /\
              (forall r, In (EvInvoke cb r) tr0 -> r = None).
Proof.
  intros H Hin. destruct o as [x|].
  2: { apply (loop_trace_running _ _ H) in Hin. discriminate. }
  destruct (loop_trace_last _ _ H) as (tr0 & ev & -> & Hnil & Hev).
  apply in_app_or in Hin. destruct Hin as [Hin|[Hin|[]]].
  { apply Hnil in Hin. discriminate. }
  subst ev. destruct Hev as [(n & e' & Hev & _)|[[Hev ->]|(e' & Hne & Hev & ->)]];
    try discriminate; injection Hev as <-.
  - rewrite error_eqb_refl. eauto.
  - apply error_eqb_neq in Hne. rewrite Hne. eauto.
Qed.

End LoopTraces.

(** In a run that has returned, a callback error is the last call but
    one, before the deferred [Close]. *)
Lemma Monitor_trace_callback_error c cb h o e :
  Monitor_trace c cb h o ->
  o <> None ->
  In (EvInvoke cb (Some e)) h ->
  exists h0 fd' res,
    h = (h0 ++ [EvInvoke cb (Some e); EvClose fd' res])%list /\
    forall r, In (EvInvoke cb r) h0 -> r = None.
Proof.
  intros H Ho Hin.
  destruct H as [e0 Hc|Hc|e0 Hc|fd' Hc|fd' n e0 Hc|fd' n e0 res Hc
                 |fd' n tr x Hc Ht|fd' n tr x res Hc Ht];
    try contradiction; cbn in Hin; try solve [intuition discriminate].
  destruct Hin as [Hin|[Hin|Hin]]; try discriminate.
  apply in_app_or in Hin. destruct Hin as [Hin|[Hin|[]]]; [|discriminate].
  destruct (loop_trace_error fd' cb tr _ _ Ht Hin) as [_ (tr0 & -> & Hnil)].
  exists (opened c (inl fd') :: written c fd' (n, None) :: tr0), fd', res.
  split.
  - cbn. now rewrite <- app_assoc.
  - intros r [Hin0|[Hin0|Hin0]]; try discriminate. now apply Hnil.
Qed.

(** The loop only waits and calls the callback. *)
Lemma loop_trace_events fd cb tr x ev :
  loop_trace fd cb tr x ->
  In ev tr ->
  (exists a, ev = EvPoll (pollfds fd) (-1) a) \/ (exists r, ev = EvInvoke cb r).
Proof.
  induction 1; cbn; intros Hin;
    repeat match goal with
           | H : _ \/ _ |- _ => destruct H
           | H : False |- _ => destruct H
           end; subst; eauto.
Qed.

(** In a run that has returned after a successful open, the file opened
    is closed by the last call, by no other, and the call before it is
    the one that made [Monitor] return. *)
Lemma Monitor_trace_closes c cb h r name flag perm fd :
  Monitor_trace c cb h (Some r) ->
  In (EvOpenFile name flag perm (inl fd)) h ->
  closes h = [fd] /\
  exists h0 ev res,
    h = (h0 ++ [ev; EvClose fd res])%list /\
    closes (h0 ++ [ev]) = [] /\
    ((exists n e, ev = written c fd (n, Some e) /\ r = Some e) \/
     (exists n e, ev = EvPoll (pollfds fd) (-1) (n, Some e) /\ r = Some e) \/
     (ev = EvInvoke cb (Some ErrStopMonitoring) /\ r = None) \/
     (exists e, e <> ErrStopMonitoring /\
                ev = EvInvoke cb (Some e) /\ r = Some e)).
Proof.
  intros H Hin. remember (Some r) as o eqn:Eo.
  destruct H as [e0 Hc|Hc|e0 Hc|fd' Hc|fd' n e0 Hc|fd' n e0 res Hc
                 |fd' n tr x Hc Ht|fd' n tr x res Hc Ht];
    try discriminate; injection Eo as <-.
  - destruct Hin.
  - destruct Hin as [Hin|[]]. discriminate.
  - destruct Hin as [Hin|[Hin|[Hin|[]]]]; try discriminate.
    injection Hin as _ _ _ <-. split; [reflexivity|].
    exists [opened c (inl fd')], (written c fd' (n, Some e0)), res.
    repeat split. left; eauto.
  - assert (fd' = fd) as ->.
    { destruct Hin as [Hin|[Hin|Hin]]; try discriminate.
      - now injection Hin.
      - apply in_app_or in Hin. destruct Hin as [Hin|[Hin|[]]]; [|discriminate].
        destruct (loop_trace_events _ _ _ _ _ Ht Hin) as [[a E]|[a E]];
          discriminate. }
    pose proof (loop_trace_closes _ _ _ _ Ht) as Hcl.
    split.
    { change (closes ([opened c (inl fd); written c fd (n, None)] ++ tr
                      ++ [EvClose fd res]) = [fd]).
      rewrite !closes_app, Hcl. reflexivity. }
    destruct (loop_trace_last _ _ _ _ Ht) as (tr0 & ev & -> & _ & Hev).
    exists (opened c (inl fd) :: written c fd (n, None) :: tr0), ev, res.
    split; [cbn; now rewrite <- app_assoc|]. split; [exact Hcl|].
    destruct Hev as [(m & e & -> & ->)|[[-> ->]|(e & Hne & -> & ->)]]; cbn; eauto 8.
Qed.

(* ===================================================================== *)
(** * Facts about formatting                                              *)
(* ===================================================================== *)

Lemma string_forall_app P s1 s2 :
  string_forall P (s1 ++ s2) = string_forall P s1 && string_forall P s2.
Proof.
  induction s1 as [|a s1 IH]; cbn; [reflexivity|].
  now rewrite IH, andb_assoc.
Qed.

Lemma string_forall_impl (P Q : ascii -> bool) s :
  (forall a, P a = true -> Q a = true) ->
  string_forall P s = true -> string_forall Q s = true.
Proof.
  intros HPQ. induction s as [|a s IH]; cbn; [reflexivity|].
  intros H. apply andb_true_iff in H. destruct H as [Ha Hs].
  now rewrite (HPQ a Ha), IH.
Qed.

Lemma is_decimal_not_NUL_LF a : is_decimal a = true -> not_NUL_LF a = true.
Proof.
  destruct a as [[] [] [] [] [] [] [] []]; cbn; intros H;
    first [reflexivity | discriminate H].
Qed.

Lemma string_of_uint_decimal d :
  string_forall is_decimal (NilEmpty.string_of_uint d) = true.
Proof. induction d; cbn; auto. Qed.

(** A formatted integer is made of digits, after a minus sign if any. *)
Lemma FormatInt_decimal z : string_forall is_decimal (FormatInt z) = true.
Proof.
  unfold FormatInt, NilZero.string_of_int, NilZero.string_of_uint.
  destruct (Z.to_int z) as [d|d]; destruct d;
    first [reflexivity | apply string_of_uint_decimal
           | cbn [string_forall]; apply andb_true_iff; split;
             [reflexivity | apply string_of_uint_decimal]].
Qed.

(** [Microseconds] drops what is left of a microsecond. *)
Lemma Microseconds_truncates d :
  0 <= d -> 1000 * Microseconds d <= d < 1000 * Microseconds d + 1000.
Proof.
  intros Hd. unfold Microseconds.
  pose proof (Z.quot_rem' d 1000) as E.
  pose proof (Z.rem_bound_pos d 1000 Hd ltac:(lia)) as B.
  lia.
Qed.

(** What [Check] has let through is within the bounds. *)
Lemma Check_None_bounds c :
  Check c = None ->
  Millisecond * 500 <= WindowDuration c <= Second * 10 /\
  Millisecond * 50 <= StallWindowDuration c <= Second.
Proof.
  unfold Check, Second, Millisecond, Microsecond, Nanosecond.
  rewrite !Z.gtb_ltb.
  repeat match goal with
         | |- context [?a <? ?b] => destruct (Z.ltb_spec a b)
         end; try discriminate. lia.
Qed.

(* ===================================================================== *)
(** * The steps of [Monitor]                                              *)
(* ===================================================================== *)

Section MonitorSteps.

Variable w : World.
Variable c : Config.
Variable cb : MonitorCallback.

(** One round. *)
Lemma Monitor_body_steps fd fuel h :
  run fuel w h (WithStop.Monitor_body fd cb) =
  match fuel with
  | O => Outcome h O None
  | S fuel1 =>
    let p := w _ h (Poll (pollfds fd) (-1)) in
    let h1 := (h ++ [EvPoll (pollfds fd) (-1) p])%list in
    match snd p with
    | Some e => Outcome h1 fuel1 (Some (inr (Return e)))
    | None =>
      match fuel1 with
      | O => Outcome h1 O None
      | S fuel2 =>
        let r := w _ h1 (Invoke cb) in
        let h2 := (h1 ++ [EvInvoke cb r])%list in
        match r with
        | Some e =>
          Outcome h2 fuel2
            (Some (if error_eqb e ErrStopMonitoring then inr Break
                   else inr (Return e)))
        | None => Outcome h2 fuel2 (Some (inl tt))
        end
      end
    end
  end.
Proof.
  unfold WithStop.Monitor_body. rewrite run_bind.
  destruct fuel as [|fuel1]; [reflexivity|].
  rewrite run_trigger. fold (pollfds fd). cbn zeta.
  destruct (w _ h (Poll (pollfds fd) (-1))) as [n [e|]]; cbn [snd observed].
  - apply run_Ret.
  - rewrite run_bind. destruct fuel1 as [|fuel2]; [reflexivity|].
    rewrite run_trigger. cbn [observed].
    destruct (w _ _ (Invoke cb)) as [e|].
    + destruct (error_eqb e ErrStopMonitoring); apply run_Ret.
    + apply run_Ret.
Qed.

(** The loop: what a run of it, of any length, leaves behind. *)
Lemma loop_run fd fuel h :
  let o := run fuel w h (for_ever (WithStop.Monitor_body fd cb)) in
  exists tr, history o = (h ++ tr)%list /\ loop_trace fd cb tr (returned o).
Proof.
  revert h. induction fuel as [fuel IH] using lt_wf_ind. intros h. cbn zeta.
  rewrite run_for_ever, Monitor_body_steps.
  destruct fuel as [|fuel1].
  { exists []. rewrite app_nil_r. split; [reflexivity | constructor]. }
  cbn zeta. destruct (w _ h (Poll (pollfds fd) (-1))) as [n [e|]]; cbn [snd].
  { eexists. split; [reflexivity | constructor]. }
  destruct fuel1 as [|fuel2].
  { eexists. split; [reflexivity | constructor]. }
  destruct (w _ _ (Invoke cb)) as [e|].
  - destruct (error_eqb e ErrStopMonitoring) eqn:E.
    + apply error_eqb_eq in E. subst e.
      eexists. split; [cbn; rewrite <- app_assoc; reflexivity | constructor].
    + apply error_eqb_neq in E.
      eexists. split; [cbn; rewrite <- app_assoc; reflexivity | now constructor].
  - destruct fuel2 as [|fuel3].
    + eexists. split; [cbn; rewrite <- app_assoc; reflexivity |].
      cbn. apply lt_round, lt_waiting.
    + destruct (IH fuel3 ltac:(lia)
                  ((h ++ [EvPoll (pollfds fd) (-1) (n, None)]) ++ [EvInvoke cb None])%list)
        as [tr [Eh Ht]].
      eexists. split; [rewrite Eh, <- !app_assoc; reflexivity |].
      cbn. apply lt_round, Ht.
Qed.

(** [Monitor] as a whole, after a successful [Check]: open, write, the
    loop, and the deferred [Close] on the way out. *)
Lemma Monitor_steps fuel :
  Check c = None ->
  run fuel w [] (WithStop.Monitor c cb) =
  match fuel with
  | O => Outcome [] O None
  | S fuel1 =>
    let r := w _ [] (OpenFile (pressure_path c) (Z.lor O_RDWR O_NONBLOCK) 0) in
    let h1 := [EvOpenFile (pressure_path c) (Z.lor O_RDWR O_NONBLOCK) 0 r] in
    match r with
    | inr e => Outcome h1 fuel1 (Some (Some e))
    | inl fd =>
      match fuel1 with
      | O => Outcome h1 O None
      | S fuel2 =>
        let a := w _ h1 (Write fd (control_line c)) in
        let h2 := (h1 ++ [EvWrite fd (control_line c) a])%list in
        match snd a with
        | Some e =>
          run fuel2 w h2 (_ <- ITree.trigger (Close fd) ;; Ret (Some e))
        | None =>
          match run fuel2 w h2 (for_ever (WithStop.Monitor_body fd cb)) with
          | Outcome h3 fuel3 (Some x) =>
            run fuel3 w h3 (_ <- ITree.trigger (Close fd) ;; Ret (after_loop x))
          | Outcome h3 fuel3 None => Outcome h3 fuel3 None
          end
        end
      end
    end
  end.
Proof.
  intros Hc. unfold WithStop.Monitor. rewrite Hc, run_bind.
  destruct fuel as [|fuel1]; [reflexivity|].
  rewrite run_trigger. fold (pressure_path c). cbn zeta. cbn [observed app].
  destruct (w _ [] (OpenFile (pressure_path c) (Z.lor O_RDWR O_NONBLOCK) 0))
    as [fd|e].
  2: apply run_Ret.
  unfold defer, Fprintf. fold (control_line c). rewrite !run_bind.
  destruct fuel1 as [|fuel2]; [reflexivity|].
  rewrite run_trigger. cbn [observed].
  destruct (w _ _ (Write fd (control_line c))) as [n [e|]]; cbn [snd].
  - rewrite run_Ret. reflexivity.
  - rewrite run_bind.
    destruct (run fuel2 w _ (for_ever (WithStop.Monitor_body fd cb)))
      as [h3 fuel3 [x|]]; [|reflexivity].
    destruct x; rewrite run_Ret; reflexivity.
Qed.

(** The deferred call. *)
Lemma run_Close {R} fuel h fd (r : R) :
  run fuel w h (_ <- ITree.trigger (Close fd) ;; Ret r) =
  match fuel with
  | O => Outcome h O None
  | S fuel1 => Outcome (h ++ [EvClose fd (w _ h (Close fd))])%list fuel1 (Some r)
  end.
Proof.
  rewrite run_bind. destruct fuel; [reflexivity|].
  rewrite run_trigger. apply run_Ret.
Qed.

(** Every run of [Monitor], of any length, has one of the shapes of
    [Monitor_trace]. *)
Lemma Monitor_run fuel :
  let o := run fuel w [] (WithStop.Monitor c cb) in
  Monitor_trace c cb (history o) (returned o).
Proof.
  cbn zeta. destruct (Check c) as [e|] eqn:Hc.
  { unfold WithStop.Monitor. rewrite Hc, run_Ret. now constructor. }
  rewrite (Monitor_steps fuel Hc).
  destruct fuel as [|fuel1]; [now constructor|]. cbn zeta.
  fold (opened c (w _ [] (OpenFile (pressure_path c) (Z.lor O_RDWR O_NONBLOCK) 0))).
  destruct (w _ [] (OpenFile (pressure_path c) (Z.lor O_RDWR O_NONBLOCK) 0))
    as [fd|e]; [|now constructor].
  destruct fuel1 as [|fuel2]; [now constructor|].
  fold (written c fd (w _ [opened c (inl fd)] (Write fd (control_line c)))).
  destruct (w _ [opened c (inl fd)] (Write fd (control_line c))) as [n [e|]];
    cbn [snd app].
  - rewrite run_Close. destruct fuel2; now constructor.
  - pose proof (loop_run fd fuel2 [opened c (inl fd); written c fd (n, None)])
      as [tr [Eh Ht]].
    destruct (run fuel2 w _ (for_ever (WithStop.Monitor_body fd cb)))
      as [h3 fuel3 [x|]]; cbn [history returned] in *; subst h3.
    + rewrite run_Close. destruct fuel3; cbn [history returned app].
      * now apply mt_loop with (x := Some x).
      * now apply mt_closed.
    + now apply mt_loop with (x := None).
Qed.

(** Once the callback has returned an error, the run needs one more step
    at most, the deferred [Close], and then [Monitor] has returned: [nil]
    for [ErrStopMonitoring], the error itself for any other. *)
Lemma Monitor_after_callback_error fuel e :
  In (EvInvoke cb (Some e)) (history (run fuel w [] (WithStop.Monitor c cb))) ->
  returned (run (S fuel) w [] (WithStop.Monitor c cb)) =
  Some (if error_eqb e ErrStopMonitoring then None else Some e).
Proof.
  intros Hin. destruct (Check c) as [e0|] eqn:Hc.
  { unfold WithStop.Monitor in Hin. rewrite Hc, run_Ret in Hin. destruct Hin. }
  rewrite (Monitor_steps fuel Hc) in Hin. rewrite (Monitor_steps (S fuel) Hc).
  destruct fuel as [|fuel1]; [destruct Hin|]. cbn zeta in *.
  destruct (w _ [] (OpenFile (pressure_path c) (Z.lor O_RDWR O_NONBLOCK) 0))
    as [fd|e1].
  2: { destruct Hin as [Hin|[]]. discriminate. }
  destruct fuel1 as [|fuel2].
  { destruct Hin as [Hin|[]]. discriminate. }
  destruct (w _ _ (Write fd (control_line c))) as [n [e1|]]; cbn [snd] in *.
  { rewrite run_Close in Hin.
    destruct fuel2; cbn in Hin; intuition discriminate. }
  set (h2 := ([EvOpenFile (pressure_path c) (Z.lor O_RDWR O_NONBLOCK) 0 (inl fd)]
               ++ [EvWrite fd (control_line c) (n, None)])%list) in *.
  pose proof (loop_run fd fuel2 h2) as [tr [Eh Ht]].
  assert (Hmore := fun x => run_more w 1 fuel2 h2
                             (for_ever (WithStop.Monitor_body fd cb)) x).
  rewrite Nat.add_1_r in Hmore.
  destruct (run fuel2 w h2 (for_ever (WithStop.Monitor_body fd cb)))
    as [h3 fuel3 [x|]]; cbn [history returned fuel_left] in *; subst h3.
  - assert (Htr : In (EvInvoke cb (Some e)) tr).
    { rewrite run_Close in Hin.
      destruct fuel3; cbn [history] in Hin;
        repeat (apply in_app_or in Hin; destruct Hin as [Hin|Hin]);
        cbn in Hin; intuition discriminate. }
    destruct (loop_trace_error fd cb tr _ e Ht Htr) as [Ex _].
    injection Ex as ->.
    rewrite (Hmore _ eq_refl), run_Close, Nat.add_1_r. cbn [returned].
    now destruct (error_eqb e ErrStopMonitoring).
  - assert (Htr : In (EvInvoke cb (Some e)) tr).
    { repeat (apply in_app_or in Hin; destruct Hin as [Hin|Hin]);
        cbn in Hin; intuition discriminate. }
    apply (loop_trace_running fd cb tr _ Ht) in Htr. discriminate.
Qed.

End MonitorSteps.

(* ===================================================================== *)
(** * [Check]                                                             *)
(* ===================================================================== *)

Ltac bounds :=
  unfold Check, bound_checks, Second, Millisecond, Microsecond, Nanosecond in *;
  cbn [first_failing];
  repeat match goal with
         | |- context [?a <? ?b] => destruct (Z.ltb_spec a b)
         | |- context [?a >? ?b] => rewrite (Z.gtb_ltb a b)
         end;
  try reflexivity; try lia.

(** C2. Every configuration whose WindowDuration lies in [500ms, 10s] and
    whose StallWindowDuration lies in [50ms, 1s] passes [Check], whatever
    its Resource and Type and however the two durations compare; one such
    configuration has its StallWindowDuration above its WindowDuration. *)
Theorem Check_accepts_bounds :
  (forall c : Config,
      Millisecond * 500 <= WindowDuration c <= Second * 10 ->
      Millisecond * 50 <= StallWindowDuration c <= Second ->
      Check c = None) /\
  (exists c : Config,
      StallWindowDuration c > WindowDuration c /\ Check c = None).
Proof.
  split.
  - intros c Hw Hs. bounds.
  - exists (mkConfig ResourceIO StallTypeFull Second (Millisecond * 500)).
    split; reflexivity.
Qed.

Lemma Check_accepts_bounds_witness :
  Check (mkConfig "" "neither" (Millisecond * 50) (Second * 10)) = None.
Proof.
  apply (proj1 Check_accepts_bounds); cbn; lia.
Defined.

(** C3. [Check] makes its four tests in the order WindowDuration minimum,
    WindowDuration maximum, StallWindowDuration minimum, StallWindowDuration
    maximum, and returns the error of the first that fails: a
    WindowDuration under 500ms or over 10s gives the WindowDuration error
    whatever the StallWindowDuration, and with a WindowDuration in range a
    StallWindowDuration under 50ms or over 1s gives the StallWindowDuration
    error. *)
Theorem Check_first_failing (c : Config) :
  Check c = first_failing (bound_checks c) /\
  (WindowDuration c < Millisecond * 500 ->
   Check c = Some (Errorf "Minmum WindowDuration is 500ms")) /\
  (WindowDuration c > Second * 10 ->
   Check c = Some (Errorf "Maximum WindowDuration is 10s")) /\
  (Millisecond * 500 <= WindowDuration c <= Second * 10 ->
   StallWindowDuration c < Millisecond * 50 ->
   Check c = Some (Errorf "Minmum StallWindowDuration is 50ms")) /\
  (Millisecond * 500 <= WindowDuration c <= Second * 10 ->
   StallWindowDuration c > Second ->
   Check c = Some (Errorf "Maximum StallWindowDuration is 1s")).
Proof.
  repeat split; intros; bounds.
Qed.

Lemma Check_first_failing_witness :
  Check (mkConfig "cpu" "some" 0 (Second * 11)) =
    Some (Errorf "Maximum WindowDuration is 10s") /\
  Check (mkConfig "cpu" "some" (Second * 2) Second) =
    Some (Errorf "Maximum StallWindowDuration is 1s").
Proof.
  split.
  - apply (proj1 (proj2 (proj2 (Check_first_failing _)))). cbn. lia.
  - apply (proj2 (proj2 (proj2 (proj2 (Check_first_failing _))))); cbn; lia.
Defined.

(** C10. [Check] looks at the two durations only: configurations that
    agree on StallWindowDuration and WindowDuration get the same answer,
    whatever their Resource and Type. *)
Theorem Check_durations_only (c1 c2 : Config) :
  StallWindowDuration c1 = StallWindowDuration c2 ->
  WindowDuration c1 = WindowDuration c2 ->
  Check c1 = Check c2.
Proof.
  intros Hs Hw. unfold Check. rewrite Hs, Hw. reflexivity.
Qed.

Lemma Check_durations_only_witness :
  Check (mkConfig ResourceCPU StallTypeSome (Millisecond * 100) Second) =
  Check (mkConfig "" "every" (Millisecond * 100) Second).
Proof.
  apply Check_durations_only; reflexivity.
Defined.

(* ===================================================================== *)
(** * [Explain]                                                           *)
(* ===================================================================== *)

(** C4. [Explain] starts with "at least one" for the Type "some", with
    "all of" for "full" and with "UNKNOWN" for any other Type, and its
    sentence ends with one newline, the byte 10.  For the Type "some", the
    Resource "cpu", a StallWindowDuration of 100ms and a WindowDuration of
    1s it is the sentence below, and with "full" the same sentence with
    "all of" in the place of "at least one" (so it reads "all of of the
    tasks"). *)
Theorem Explain_phrases :
  (forall c : Config,
      (c_Type c = "some" ->
       Explain c = "at least one" ++ Explain_rest c (String "010"%char "")) /\
      (c_Type c = "full" ->
       Explain c = "all of" ++ Explain_rest c (String "010"%char "")) /\
      (c_Type c <> "some" -> c_Type c <> "full" ->
       Explain c = "UNKNOWN" ++ Explain_rest c (String "010"%char ""))) /\
  Explain (mkConfig "cpu" "some" (100 * Millisecond) Second) =
    "at least one of the tasks in the queue are waiting for cpu for longer than 100ms measured within a 1s time window"
    ++ String "010"%char "" /\
  Explain (mkConfig "cpu" "full" (100 * Millisecond) Second) =
    "all of of the tasks in the queue are waiting for cpu for longer than 100ms measured within a 1s time window"
    ++ String "010"%char "".
Proof.
  split; [|split; reflexivity].
  intros c. unfold Explain, Explain_rest, Explain_name.
  repeat split.
  - intros ->. reflexivity.
  - intros ->. reflexivity.
  - intros H1 H2.
    apply String.eqb_neq in H1, H2. unfold StallTypeSome, StallTypeFull.
    rewrite H1, H2. reflexivity.
Qed.

Lemma Explain_phrases_witness :
  Explain (mkConfig ResourceMemory "every" (Millisecond * 1500) (Second * 90)) =
  "UNKNOWN of the tasks in the queue are waiting for memory for longer than 1.5s measured within a 1m30s time window"
  ++ String "010"%char "".
Proof.
  apply (proj1 Explain_phrases); discriminate.
Defined.

(* ===================================================================== *)
(** * [Monitor]                                                           *)
(* ===================================================================== *)

(** C9. When [Check] rejects the configuration, [Monitor] returns that
    error at once: it is the program that only returns, so in every world
    and with any fuel the run makes no call at all (no open, no write, no
    wait, no callback) and uses no fuel. *)
Theorem Monitor_invalid_config (c : Config) (cb : MonitorCallback) (e : error) :
  Check c = Some e ->
  WithStop.Monitor c cb = Ret (Some e) /\
  forall (w : World) (fuel : nat),
    run fuel w [] (WithStop.Monitor c cb) = Outcome [] fuel (Some (Some e)).
Proof.
  intros Hc.
  assert (E : WithStop.Monitor c cb = Ret (Some e))
    by (unfold WithStop.Monitor; now rewrite Hc).
  split; [exact E|]. intros w fuel. rewrite E. apply run_Ret.
Qed.

Lemma Monitor_invalid_config_witness :
  run 0 stop_on_third_call []
      (WithStop.Monitor (mkConfig ResourceCPU StallTypeSome Second 0) 0%nat) =
  Outcome [] 0 (Some (Some (Errorf "Minmum WindowDuration is 500ms"))).
Proof.
  apply (Monitor_invalid_config (mkConfig ResourceCPU StallTypeSome Second 0)).
  reflexivity.
Defined.

(** C6. With a configuration that passes [Check], an open and a write
    that succeed, a first wait that returns, and a callback that returns
    [ErrStopMonitoring] the first time it is called, [Monitor] returns
    [nil] within five steps, whatever fuel it is given beyond them, and
    the callback has been called exactly once. *)
Theorem Monitor_stops_on_first_call
    (w : World) (c : Config) (cb : MonitorCallback)
    (fd : File) (n m : Z) (extra : nat) :
  let h1 := [opened c (inl fd)] in
  let h2 := (h1 ++ [written c fd (n, None)])%list in
  let h3 := (h2 ++ [EvPoll (pollfds fd) (-1) (m, None)])%list in
  let h4 := (h3 ++ [EvInvoke cb (Some ErrStopMonitoring)])%list in
  Check c = None ->
  w _ [] (OpenFile (pressure_path c) (Z.lor O_RDWR O_NONBLOCK) 0) = inl fd ->
  w _ h1 (Write fd (control_line c)) = (n, None) ->
  w _ h2 (Poll (pollfds fd) (-1)) = (m, None) ->
  w _ h3 (Invoke cb) = Some ErrStopMonitoring ->
  let o := run (5 + extra) w [] (WithStop.Monitor c cb) in
  returned o = Some None /\
  fuel_left o = extra /\
  history o = (h4 ++ [EvClose fd (w _ h4 (Close fd))])%list /\
  invocations (history o) = 1%nat.
Proof.
  intros h1 h2 h3 h4 Hc Hopen Hwrite Hpoll Hcb. cbn zeta.
  rewrite (Monitor_steps w c cb _ Hc). cbn [Nat.add]. cbn zeta.
  rewrite Hopen. fold (opened c (inl fd)). fold h1.
  rewrite Hwrite. cbn [snd]. fold (written c fd (n, None)). fold h2.
  rewrite run_for_ever, Monitor_body_steps. cbn zeta.
  rewrite Hpoll. cbn [snd]. fold h3.
  rewrite Hcb. fold h4. cbn [error_eqb]. rewrite error_eqb_refl.
  rewrite run_Close. cbn [returned fuel_left history after_loop].
  repeat split; reflexivity.
Qed.

Lemma Monitor_stops_on_first_call_witness :
  returned
    (run 5 (fun X h e =>
              match e in psiE X return X with
              | OpenFile _ _ _ => inl 3
              | Write _ _ => (20, None)
              | Poll _ _ => (1, None)
              | Invoke _ => Some ErrStopMonitoring
              | Close _ => None
              end)
         [] (WithStop.Monitor example_config 7%nat)) = Some None.
Proof.
  apply (Monitor_stops_on_first_call _ example_config 7%nat 3 20 1 0);
    reflexivity.
Defined.

(** C1. [Monitor] returns [nil] exactly when the callback has returned
    [ErrStopMonitoring]; whatever it returns is the first thing that went
    wrong: the error of [Check], else the first error of the open, the
    write, a wait or the callback ([ErrStopMonitoring] from the callback
    not counting as one).  And a callback that returns
    [ErrStopMonitoring] does make [Monitor] return [nil]: one more step
    of the run is enough. *)
Theorem Monitor_nil_iff_stopped
    (w : World) (c : Config) (cb : MonitorCallback) (fuel : nat) :
  let o := run fuel w [] (WithStop.Monitor c cb) in
  (forall r : option error,
      returned o = Some r ->
      (r = None <-> In (EvInvoke cb (Some ErrStopMonitoring)) (history o)) /\
      r = first_failure c (history o)) /\
  (In (EvInvoke cb (Some ErrStopMonitoring)) (history o) ->
   returned (run (S fuel) w [] (WithStop.Monitor c cb)) = Some None).
Proof.
  cbn zeta. split.
  - intros r Hr. pose proof (Monitor_run w c cb fuel) as H. cbn zeta in H.
    rewrite Hr in H. unfold first_failure.
    inversion H as [e Hc| |e Hc| | |fd n e res Hc| |fd n tr x res Hc Ht];
      subst; rewrite Hc.
    + split; [|reflexivity]. split; [discriminate | intros []].
    + split; [|reflexivity]. split; [discriminate|].
      intros [Hin|[]]. discriminate.
    + split; [|reflexivity]. split; [discriminate|].
      cbn. intuition discriminate.
    + split.
      * split.
        -- intros Hx. destruct x; [|discriminate].
           destruct (loop_trace_last fd cb tr _ Ht)
             as (tr0 & ev & -> & _ & [(?&?&_&?)|[[-> _]|(?&_&_&?)]]);
             try discriminate.
           right; right. apply in_or_app. left. apply in_or_app. right. now left.
        -- intros [Hin|[Hin|Hin]]; try discriminate.
           apply in_app_or in Hin. destruct Hin as [Hin|[Hin|[]]]; [|discriminate].
           destruct (loop_trace_error fd cb tr _ _ Ht Hin) as [Ex _].
           rewrite error_eqb_refl in Ex. now injection Ex as ->.
      * change (opened c (inl fd) :: written c fd (n, None) :: tr ++ [EvClose fd res])%list
          with ([opened c (inl fd); written c fd (n, None)] ++ tr ++ [EvClose fd res])%list.
        rewrite !failures_app, (loop_trace_failures fd cb tr _ Ht).
        now destruct x.
  - intros Hin.
    rewrite (Monitor_after_callback_error w c cb fuel _ Hin).
    now rewrite error_eqb_refl.
Qed.

Lemma Monitor_nil_iff_stopped_witness :
  In (EvInvoke 0%nat (Some ErrStopMonitoring))
     (history (run 11 stop_on_third_call [] (WithStop.Monitor example_config 0%nat))) /\
  returned (run 11 stop_on_third_call [] (WithStop.Monitor example_config 0%nat)) =
    Some None.
Proof.
  pose proof (Monitor_nil_iff_stopped stop_on_third_call example_config 0%nat 11) as H.
  cbn zeta in H. destruct H as [H _].
  assert (E : returned (run 11 stop_on_third_call []
                          (WithStop.Monitor example_config 0%nat)) = Some None)
    by reflexivity.
  destruct (H None E) as [[Hin _] _].
  split; [exact (Hin eq_refl) | exact E].
Defined.

(** C7. Once the callback has returned an error [e] other than
    [ErrStopMonitoring], on whichever call, [Monitor] returns that very
    [e]: one more step of the run is enough, the callback is not called
    again (its error is followed by the deferred [Close] only), and every
    earlier call of it had returned [nil]. *)
Theorem Monitor_callback_error
    (w : World) (c : Config) (cb : MonitorCallback) (fuel : nat) (e : error) :
  e <> ErrStopMonitoring ->
  In (EvInvoke cb (Some e)) (history (run fuel w [] (WithStop.Monitor c cb))) ->
  let o := run (S fuel) w [] (WithStop.Monitor c cb) in
  returned o = Some (Some e) /\
  exists h0 fd res,
    history o = (h0 ++ [EvInvoke cb (Some e); EvClose fd res])%list /\
    forall r, In (EvInvoke cb r) h0 -> r = None.
Proof.
  intros Hne Hin. cbn zeta.
  pose proof (Monitor_after_callback_error w c cb fuel e Hin) as Hr.
  apply error_eqb_neq in Hne. rewrite Hne in Hr. split; [exact Hr|].
  assert (Hin' : In (EvInvoke cb (Some e))
                    (history (run (S fuel) w [] (WithStop.Monitor c cb)))).
  { destruct (run_step_history w fuel [] (WithStop.Monitor c cb)) as [tr ->].
    apply in_or_app. now left. }
  pose proof (Monitor_run w c cb (S fuel)) as H. cbn zeta in H.
  apply (Monitor_trace_callback_error _ _ _ _ _ H); [congruence | exact Hin'].
Qed.

Lemma Monitor_callback_error_witness :
  returned
    (run 6 (fun X h e =>
              match e in psiE X return X with
              | OpenFile _ _ _ => inl 3
              | Write _ _ => (20, None)
              | Poll _ _ => (1, None)
              | Invoke _ => Some (Errorf "psi: stop it")
              | Close _ => None
              end)
         [] (WithStop.Monitor example_config 0%nat)) =
  Some (Some (Errorf "psi: stop it")).
Proof.
  apply (Monitor_callback_error _ example_config 0%nat 5 (Errorf "psi: stop it")).
  - discriminate.
  - cbn. tauto.
Defined.

(** C8. Whenever [Monitor] returns after a successful open, the file it
    opened has been closed exactly once, by the last call of the run, and
    nothing before that call closed anything.  The call before the
    [Close] is the one that ended the run: a failed write, a failed
    wait, the callback returning [ErrStopMonitoring] (and [Monitor]
    returns [nil]), or the callback returning another error. *)
Theorem Monitor_closes_once
    (w : World) (c : Config) (cb : MonitorCallback) (fuel : nat)
    (r : option error) (name : string) (flag perm : Z) (fd : File) :
  let o := run fuel w [] (WithStop.Monitor c cb) in
  returned o = Some r ->
  In (EvOpenFile name flag perm (inl fd)) (history o) ->
  closes (history o) = [fd] /\
  exists h0 ev res,
    history o = (h0 ++ [ev; EvClose fd res])%list /\
    closes (h0 ++ [ev]) = [] /\
    ((exists n e, ev = written c fd (n, Some e) /\ r = Some e) \/
     (exists n e, ev = EvPoll (pollfds fd) (-1) (n, Some e) /\ r = Some e) \/
     (ev = EvInvoke cb (Some ErrStopMonitoring) /\ r = None) \/
     (exists e, e <> ErrStopMonitoring /\
                ev = EvInvoke cb (Some e) /\ r = Some e)).
Proof.
  cbn zeta. intros Hr Hin.
  pose proof (Monitor_run w c cb fuel) as H. cbn zeta in H. rewrite Hr in H.
  exact (Monitor_trace_closes _ _ _ _ _ _ _ _ H Hin).
Qed.

Lemma Monitor_closes_once_witness :
  closes (history (run 11 stop_on_third_call []
                     (WithStop.Monitor example_config 0%nat))) = [3].
Proof.
  apply (Monitor_closes_once stop_on_third_call example_config 0%nat 11 None
           "/proc/pressure/cpu" 2050 0 3).
  - reflexivity.
  - left. reflexivity.
Defined.

(** C5. After a successful open, [Monitor] writes exactly once, to the
    file it opened, and what it writes is the Type, a space, the
    StallWindowDuration in whole microseconds, a space, the WindowDuration
    in whole microseconds and one NUL, the byte 0.  The microseconds are the
    nanoseconds divided by 1000 with the remainder dropped; between the
    Type and the final NUL there is no NUL and no newline.  For the Type
    "some", 100ms and 1s the line is "some 100000 1000000" and the NUL. *)
Theorem control_line_written
    (w : World) (c : Config) (cb : MonitorCallback) (fuel : nat) (fd : File) :
  Check c = None ->
  w _ [] (OpenFile (pressure_path c) (Z.lor O_RDWR O_NONBLOCK) 0) = inl fd ->
  let stall := Microseconds (StallWindowDuration c) in
  let window := Microseconds (WindowDuration c) in
  writes (history (run (2 + fuel) w [] (WithStop.Monitor c cb))) =
    [(fd, control_line c)] /\
  control_line c =
    c_Type c ++ " " ++ FormatInt stall ++ " " ++ FormatInt window
           ++ String "000"%char "" /\
  1000 * stall <= StallWindowDuration c < 1000 * stall + 1000 /\
  1000 * window <= WindowDuration c < 1000 * window + 1000 /\
  string_forall not_NUL_LF (" " ++ FormatInt stall ++ " " ++ FormatInt window) = true /\
  forall r : Resource,
    control_line (mkConfig r "some" (100 * Millisecond) Second) =
    "some 100000 1000000" ++ String "000"%char "".
Proof.
  intros Hc Hopen. cbn zeta.
  destruct (Check_None_bounds c Hc) as [Hw Hs].
  unfold Second, Millisecond, Microsecond, Nanosecond in Hw, Hs.
  repeat split; try reflexivity;
    try (apply Microseconds_truncates; lia).
  - rewrite (Monitor_steps w c cb _ Hc). cbn [Nat.add]. cbn zeta.
    rewrite Hopen.
    destruct (w _ _ (Write fd (control_line c))) as [n [e|]]; cbn [snd].
    + rewrite run_Close. now destruct fuel.
    + set (h2 := ([EvOpenFile (pressure_path c) (Z.lor O_RDWR O_NONBLOCK) 0 (inl fd)]
                   ++ [EvWrite fd (control_line c) (n, None)])%list).
      pose proof (loop_run w cb fd fuel h2) as [tr [Eh Ht]].
      pose proof (loop_trace_writes _ _ _ _ Ht) as Hwr.
      destruct (run fuel w h2 (for_ever (WithStop.Monitor_body fd cb)))
        as [h3 fuel3 [x|]]; cbn [history returned] in *; subst h3.
      * rewrite run_Close.
        destruct fuel3; cbn [history]; rewrite ?writes_app, Hwr; reflexivity.
      * rewrite writes_app, Hwr. reflexivity.
  - assert (D : forall z, string_forall not_NUL_LF (FormatInt z) = true).
    { intros z. apply (string_forall_impl is_decimal).
      - apply is_decimal_not_NUL_LF.
      - apply FormatInt_decimal. }
    rewrite !string_forall_app, !D. reflexivity.
Qed.

Lemma control_line_written_witness :
  writes (history (run 11 stop_on_third_call []
                     (WithStop.Monitor example_config 0%nat))) =
  [(3, "some 100000 1000000" ++ String "000"%char "")].
Proof.
  apply (control_line_written stop_on_third_call example_config 0%nat 9 3);
    reflexivity.
Defined.

(* ===================================================================== *)
(** * [Monitor] of [psi.go]                                               *)
(* ===================================================================== *)

(** X4. [psi.go] has no stop value.  Every [return] of its [Monitor]
    carries an error, so it never returns [nil]. *)
Lemma PsiGo_Monitor_never_nil
    (w : World) (c : Config) (cb : MonitorCallback) (fuel : nat) :
  returned (run fuel w [] (PsiGo.Monitor c cb)) <> Some None.
Proof.
  unfold PsiGo.Monitor. destruct (Check c) as [e|].
  { rewrite run_Ret. discriminate. }
  rewrite run_bind. destruct fuel as [|fuel1]; [discriminate|].
  rewrite run_trigger.
  destruct (w _ [] _) as [fd|e]; [|rewrite run_Ret; discriminate].
  unfold defer, Fprintf. rewrite !run_bind.
  destruct fuel1 as [|fuel2]; [discriminate|].
  rewrite run_trigger.
  destruct (w _ _ (Write fd _)) as [n [e|]].
  - rewrite run_Ret, run_Close. destruct fuel2; discriminate.
  - rewrite run_bind.
    destruct (run fuel2 w _ (for_ever (PsiGo.Monitor_body fd cb)))
      as [h3 fuel3 [x|]]; [|discriminate].
    rewrite run_Ret, run_Close. destruct fuel3; discriminate.
Qed.

(** One round of its loop. *)
Lemma PsiGo_Monitor_body_steps (w : World) (cb : MonitorCallback) fd fuel h :
  run fuel w h (PsiGo.Monitor_body fd cb) =
  match fuel with
  | O => Outcome h O None
  | S fuel1 =>
    let p := w _ h (Poll (pollfds fd) (-1)) in
    let h1 := (h ++ [EvPoll (pollfds fd) (-1) p])%list in
    match snd p with
    | Some e => Outcome h1 fuel1 (Some (inr e))
    | None =>
      match fuel1 with
      | O => Outcome h1 O None
      | S fuel2 =>
        let r := w _ h1 (Invoke cb) in
        let h2 := (h1 ++ [EvInvoke cb r])%list in
        match r with
        | Some e => Outcome h2 fuel2 (Some (inr e))
        | None => Outcome h2 fuel2 (Some (inl tt))
        end
      end
    end
  end.
Proof.
  unfold PsiGo.Monitor_body. rewrite run_bind.
  destruct fuel as [|fuel1]; [reflexivity|].
  rewrite run_trigger. fold (pollfds fd). cbn zeta.
  destruct (w _ h (Poll (pollfds fd) (-1))) as [n [e|]]; cbn [snd observed].
  - apply run_Ret.
  - rewrite run_bind. destruct fuel1 as [|fuel2]; [reflexivity|].
    rewrite run_trigger. cbn [observed].
    destruct (w _ _ (Invoke cb)) as [e|]; apply run_Ret.
Qed.

(** In particular a callback that returns the value which the other file
    calls [ErrStopMonitoring] gets it back from [Monitor] as an error. *)
Lemma PsiGo_Monitor_returns_callback_error
    (w : World) (c : Config) (cb : MonitorCallback)
    (fd : File) (n m : Z) (e : error) (extra : nat) :
  let h1 := [opened c (inl fd)] in
  let h2 := (h1 ++ [written c fd (n, None)])%list in
  let h3 := (h2 ++ [EvPoll (pollfds fd) (-1) (m, None)])%list in
  Check c = None ->
  w _ [] (OpenFile (pressure_path c) (Z.lor O_RDWR O_NONBLOCK) 0) = inl fd ->
  w _ h1 (Write fd (control_line c)) = (n, None) ->
  w _ h2 (Poll (pollfds fd) (-1)) = (m, None) ->
  w _ h3 (Invoke cb) = Some e ->
  returned (run (5 + extra) w [] (PsiGo.Monitor c cb)) = Some (Some e).
Proof.
  intros h1 h2 h3 Hc Hopen Hwrite Hpoll Hcb. subst h1 h2 h3.
  unfold opened, written in *. cbn [app] in *.
  unfold PsiGo.Monitor. rewrite Hc, run_bind. cbn [Nat.add].
  rewrite run_trigger. fold (pressure_path c). rewrite Hopen.
  unfold defer, Fprintf. fold (control_line c). rewrite !run_bind.
  rewrite run_trigger. cbn [observed app].
  rewrite Hwrite. rewrite run_bind, run_for_ever, PsiGo_Monitor_body_steps.
  cbn zeta. cbn [app]. rewrite Hpoll. cbn [snd app].
  rewrite Hcb. rewrite !run_Ret, run_Close. reflexivity.
Qed.

(* ===================================================================== *)
(** * The two versions of [Monitor] side by side                          *)
(* ===================================================================== *)

(** The value with which the loop of [psi.go] is left where the other
    loop is left by [x]. *)
Lemma PsiGo_loop_run (w : World) (cb : MonitorCallback) fd fuel h :
  run fuel w h (for_ever (PsiGo.Monitor_body fd cb)) =
  let o := run fuel w h (for_ever (WithStop.Monitor_body fd cb)) in
  Outcome (history o) (fuel_left o)
    (option_map (fun x => match x with
                          | Break => ErrStopMonitoring
                          | Return e => e
                          end) (returned o)).
Proof.
  revert h. induction fuel as [fuel IH] using lt_wf_ind. intros h. cbn zeta.
  rewrite !run_for_ever, PsiGo_Monitor_body_steps, Monitor_body_steps.
  destruct fuel as [|fuel1]; [reflexivity|]. cbn zeta.
  destruct (w _ h (Poll (pollfds fd) (-1))) as [n [e|]]; cbn [snd];
    [reflexivity|].
  destruct fuel1 as [|fuel2]; [reflexivity|].
  destruct (w _ _ (Invoke cb)) as [e|].
  - destruct (error_eqb e ErrStopMonitoring) eqn:E; [|reflexivity].
    apply error_eqb_eq in E. now subst e.
  - destruct fuel2 as [|fuel3]; [reflexivity|]. apply IH. lia.
Qed.

(** A run of the [Monitor] of [psi.go] is the run of the other [Monitor]
    with the result changed by [stop_as_error]. *)
Lemma PsiGo_Monitor_run (w : World) (c : Config) (cb : MonitorCallback) fuel :
  run fuel w [] (PsiGo.Monitor c cb) =
  let o := run fuel w [] (WithStop.Monitor c cb) in
  Outcome (history o) (fuel_left o) (option_map stop_as_error (returned o)).
Proof.
  cbn zeta. destruct (Check c) as [e|] eqn:Hc.
  { unfold PsiGo.Monitor, WithStop.Monitor. rewrite Hc, !run_Ret. reflexivity. }
  rewrite (Monitor_steps w c cb fuel Hc).
  unfold PsiGo.Monitor. rewrite Hc, run_bind.
  destruct fuel as [|fuel1]; [reflexivity|].
  rewrite run_trigger. fold (pressure_path c). cbn zeta. cbn [observed app].
  destruct (w _ [] (OpenFile (pressure_path c) (Z.lor O_RDWR O_NONBLOCK) 0))
    as [fd|e].
  2: { rewrite run_Ret. reflexivity. }
  unfold defer, Fprintf. fold (control_line c). rewrite !run_bind.
  destruct fuel1 as [|fuel2]; [reflexivity|].
  rewrite run_trigger. cbn [observed].
  destruct (w _ _ (Write fd (control_line c))) as [n [e|]]; cbn [snd].
  - rewrite run_Ret, !run_Close. destruct fuel2; reflexivity.
  - rewrite run_bind, PsiGo_loop_run. cbn zeta.
    destruct (run fuel2 w _ (for_ever (WithStop.Monitor_body fd cb)))
      as [h3 fuel3 [x|]]; cbn [history fuel_left returned option_map];
      [|reflexivity].
    rewrite run_Ret, !run_Close. destruct fuel3; [reflexivity|].
    now destruct x.
Qed.

(** X1. The two versions of [Monitor] make the same calls, in every
    world and for any length of run; where the version with
    [ErrStopMonitoring] returns an error, [psi.go] returns the same error,
    and where it returns [nil], [psi.go] returns [ErrStopMonitoring]. *)
Theorem Monitor_versions_agree
    (w : World) (c : Config) (cb : MonitorCallback) (fuel : nat) :
  history (run fuel w [] (PsiGo.Monitor c cb)) =
    history (run fuel w [] (WithStop.Monitor c cb)) /\
  returned (run fuel w [] (PsiGo.Monitor c cb)) =
    option_map stop_as_error (returned (run fuel w [] (WithStop.Monitor c cb))).
Proof.
  rewrite PsiGo_Monitor_run. split; reflexivity.
Qed.

(** X2. In [psi.go], once the callback has returned an error, whichever
    it is and on whichever call, [Monitor] returns that very error: one
    more step of the run is enough. *)
Theorem PsiGo_Monitor_callback_error
    (w : World) (c : Config) (cb : MonitorCallback) (fuel : nat) (e : error) :
  In (EvInvoke cb (Some e)) (history (run fuel w [] (PsiGo.Monitor c cb))) ->
  returned (run (S fuel) w [] (PsiGo.Monitor c cb)) = Some (Some e).
Proof.
  rewrite !PsiGo_Monitor_run. cbn zeta. cbn [history returned]. intros Hin.
  rewrite (Monitor_after_callback_error w c cb fuel e Hin).
  destruct (error_eqb e ErrStopMonitoring) eqn:E; [|reflexivity].
  apply error_eqb_eq in E. now subst e.
Qed.

Lemma PsiGo_Monitor_callback_error_witness :
  returned (run 11 stop_on_third_call [] (PsiGo.Monitor example_config 0%nat)) =
  Some (Some ErrStopMonitoring).
Proof.
  apply (PsiGo_Monitor_callback_error stop_on_third_call example_config 0%nat 10).
  cbn. tauto.
Defined.

(** X3. In [psi.go] too, whenever [Monitor] returns after a successful
    open, the file it opened has been closed exactly once, by the last
    call of the run. *)
Theorem PsiGo_Monitor_closes_once
    (w : World) (c : Config) (cb : MonitorCallback) (fuel : nat)
    (r : option error) (name : string) (flag perm : Z) (fd : File) :
  let o := run fuel w [] (PsiGo.Monitor c cb) in
  returned o = Some r ->
  In (EvOpenFile name flag perm (inl fd)) (history o) ->
  closes (history o) = [fd] /\
  exists h0 res, history o = (h0 ++ [EvClose fd res])%list.
Proof.
  cbn zeta. rewrite PsiGo_Monitor_run. cbn zeta. cbn [history returned].
  intros Hr Hin.
  pose proof (Monitor_run w c cb fuel) as H. cbn zeta in H.
  destruct (returned (run fuel w [] (WithStop.Monitor c cb))) as [r0|];
    [|discriminate].
  destruct (Monitor_trace_closes _ _ _ _ _ _ _ _ H Hin)
    as [Hcl (h0 & ev & res & Eh & _)].
  split; [exact Hcl|].
  exists (h0 ++ [ev])%list, res. rewrite Eh, <- app_assoc. reflexivity.
Qed.

Lemma PsiGo_Monitor_closes_once_witness :
  closes (history (run 11 stop_on_third_call []
                     (PsiGo.Monitor example_config 0%nat))) = [3].
Proof.
  apply (PsiGo_Monitor_closes_once stop_on_third_call example_config 0%nat 11
           (Some ErrStopMonitoring) "/proc/pressure/cpu" 2050 0 3).
  - reflexivity.
  - left. reflexivity.
Defined.

(* ===================================================================== *)
(** * More about the runs of [Monitor]                                    *)
(* ===================================================================== *)

Lemma opens_app h1 h2 : opens (h1 ++ h2) = (opens h1 ++ opens h2)%list.
Proof.
  induction h1 as [|ev h1 IH]; cbn; [reflexivity|].
  destruct ev; cbn; now rewrite IH.
Qed.

Lemma polls_app h1 h2 : polls (h1 ++ h2) = (polls h1 ++ polls h2)%list.
Proof.
  induction h1 as [|ev h1 IH]; cbn; [reflexivity|].
  destruct ev; cbn; now rewrite IH.
Qed.

Lemma invoked_app h1 h2 : invoked (h1 ++ h2) = (invoked h1 ++ invoked h2)%list.
Proof.
  induction h1 as [|ev h1 IH]; cbn; [reflexivity|].
  destruct ev; cbn; now rewrite IH.
Qed.

Lemma invocations_app h1 h2 :
  invocations (h1 ++ h2) = (invocations h1 + invocations h2)%nat.
Proof.
  induction h1 as [|ev h1 IH]; cbn; [reflexivity|].
  destruct ev; cbn; now rewrite IH.
Qed.

Lemma ready_app h1 h2 : ready (h1 ++ h2) = (ready h1 + ready h2)%nat.
Proof.
  induction h1 as [|ev h1 IH]; cbn; [reflexivity|].
  destruct ev as [| | ? ? [? [?|]] | |]; cbn; now rewrite IH.
Qed.

(** The loop opens nothing, waits on the one descriptor without a
    timeout, and calls no callback but its own. *)
Lemma loop_trace_opens fd cb tr x : loop_trace fd cb tr x -> opens tr = [].
Proof. induction 1; cbn; auto. Qed.

Lemma loop_trace_polls fd cb tr x :
  loop_trace fd cb tr x -> Forall (eq (pollfds fd, -1)) (polls tr).
Proof. induction 1; cbn; auto. Qed.

Lemma loop_trace_invoked fd cb tr x :
  loop_trace fd cb tr x -> Forall (eq cb) (invoked tr).
Proof. induction 1; cbn; auto. Qed.

(** The callback is called once for each wait that returned without an
    error; only the last such wait may still be without its call. *)
Lemma loop_trace_ready fd cb tr x :
  loop_trace fd cb tr x ->
  match x with
  | Some _ => ready tr = invocations tr
  | None => (invocations tr <= ready tr <= S (invocations tr))%nat
  end.
Proof.
  induction 1 as [|n e|n|n|n e Hne|n tr x _ IH]; cbn; try lia.
  destruct x; lia.
Qed.

(** X5. When the file cannot be opened, [Monitor] returns the error of
    the open at once: the open is its only call, so nothing is written,
    there is no wait, the callback is not called, and nothing is
    closed. *)
Theorem Monitor_open_failed
    (w : World) (c : Config) (cb : MonitorCallback) (fuel : nat) (e : error) :
  Check c = None ->
  w _ [] (OpenFile (pressure_path c) (Z.lor O_RDWR O_NONBLOCK) 0) = inr e ->
  run (S fuel) w [] (WithStop.Monitor c cb) =
  Outcome [opened c (inr e)] fuel (Some (Some e)).
Proof.
  intros Hc Hopen. rewrite (Monitor_steps w c cb _ Hc). cbn zeta.
  rewrite Hopen. reflexivity.
Qed.

Lemma Monitor_open_failed_witness :
  run 1 open_fails [] (WithStop.Monitor example_config 0%nat) =
  Outcome [opened example_config (inr (PathError "open" "/proc/pressure/cpu" 2))]
          0 (Some (Some (PathError "open" "/proc/pressure/cpu" 2))).
Proof.
  apply (Monitor_open_failed open_fails example_config 0%nat 0); reflexivity.
Defined.

(** X6. When the write of the control line fails, [Monitor] closes the
    file and returns the error of the write: open, write and close are
    its only calls, so there is no wait and the callback is not called. *)
Theorem Monitor_write_failed
    (w : World) (c : Config) (cb : MonitorCallback) (extra : nat)
    (fd : File) (n : Z) (e : error) :
  let h2 := [opened c (inl fd); written c fd (n, Some e)] in
  Check c = None ->
  w _ [] (OpenFile (pressure_path c) (Z.lor O_RDWR O_NONBLOCK) 0) = inl fd ->
  w _ [opened c (inl fd)] (Write fd (control_line c)) = (n, Some e) ->
  run (3 + extra) w [] (WithStop.Monitor c cb) =
  Outcome (h2 ++ [EvClose fd (w _ h2 (Close fd))])%list extra (Some (Some e)).
Proof.
  intros h2 Hc Hopen Hwrite. rewrite (Monitor_steps w c cb _ Hc).
  cbn [Nat.add]. cbn zeta. rewrite Hopen.
  fold (opened c (inl fd)). rewrite Hwrite. cbn [snd].
  rewrite run_Close. reflexivity.
Qed.

Lemma Monitor_write_failed_witness :
  run 3 write_fails [] (WithStop.Monitor example_config 0%nat) =
  Outcome
    [opened example_config (inl 3);
     written example_config 3 (0, Some (PathError "write" "/proc/pressure/cpu" 22));
     EvClose 3 None]
    0 (Some (Some (PathError "write" "/proc/pressure/cpu" 22))).
Proof.
  exact (Monitor_write_failed write_fails example_config 0%nat 0 3 0
           (PathError "write" "/proc/pressure/cpu" 22)
           eq_refl eq_refl eq_refl).
Defined.

Lemma append_empty s : s ++ "" = s.
Proof. induction s as [|a s IH]; cbn; [reflexivity | now rewrite IH]. Qed.

(** The name of the file: the Resource after a fixed prefix. *)
Lemma pressure_path_eq c : pressure_path c = "/proc/pressure/" ++ c_Resource c.
Proof. unfold pressure_path. cbn. now rewrite append_empty. Qed.

(** A run of at least one step starts with the open, and opens nothing
    after it. *)
Lemma Monitor_history_opened
    (w : World) (c : Config) (cb : MonitorCallback) (fuel : nat) :
  Check c = None ->
  exists r rest,
    history (run (S fuel) w [] (WithStop.Monitor c cb)) = opened c r :: rest /\
    opens rest = [].
Proof.
  intros Hc. rewrite (Monitor_steps w c cb _ Hc). cbn zeta.
  fold (opened c (w _ [] (OpenFile (pressure_path c) (Z.lor O_RDWR O_NONBLOCK) 0))).
  destruct (w _ [] (OpenFile (pressure_path c) (Z.lor O_RDWR O_NONBLOCK) 0))
    as [fd|e].
  2: { exists (inr e), []. split; reflexivity. }
  destruct fuel as [|fuel2].
  { exists (inl fd), []. split; reflexivity. }
  destruct (w _ [opened c (inl fd)] (Write fd (control_line c))) as [n [e|]];
    cbn [snd].
  { rewrite run_Close. exists (inl fd).
    destruct fuel2; eexists; split; reflexivity. }
  set (h2 := ([opened c (inl fd)] ++ [EvWrite fd (control_line c) (n, None)])%list).
  pose proof (loop_run w cb fd fuel2 h2) as [tr [Eh Ht]].
  pose proof (loop_trace_opens _ _ _ _ Ht) as Hop.
  destruct (run fuel2 w h2 (for_ever (WithStop.Monitor_body fd cb)))
    as [h3 fuel3 [x|]]; cbn [history returned] in *; subst h3.
  - rewrite run_Close. exists (inl fd).
    destruct fuel3; cbn [history]; eexists; (split; [reflexivity|]);
      cbn [opens]; rewrite ?opens_app, Hop; reflexivity.
  - exists (inl fd). eexists. split; [reflexivity|]. cbn [opens]. exact Hop.
Qed.

(** X7. With a configuration that passes [Check], [Monitor] opens one
    file and only one, as its first call: the file named "/proc/pressure/"
    followed by the Resource, which is copied as it is, whatever string it
    is, for reading and writing without blocking. *)
Theorem Monitor_opens_once
    (w : World) (c : Config) (cb : MonitorCallback) (fuel : nat) :
  Check c = None ->
  let h := history (run (S fuel) w [] (WithStop.Monitor c cb)) in
  opens h = [("/proc/pressure/" ++ c_Resource c, 2050, 0)] /\
  exists r rest,
    h = EvOpenFile ("/proc/pressure/" ++ c_Resource c) 2050 0 r :: rest.
Proof.
  intros Hc. cbn zeta.
  destruct (Monitor_history_opened w c cb fuel Hc) as (r & rest & -> & Hop).
  unfold opened. rewrite pressure_path_eq.
  change (Z.lor O_RDWR O_NONBLOCK) with 2050.
  split; [cbn [opens]; now rewrite Hop | eauto].
Qed.

Lemma Monitor_opens_once_witness :
  opens (history (run 4 never_stops []
                    (WithStop.Monitor
                       (mkConfig "../version" StallTypeSome Second Second)
                       0%nat))) =
  [("/proc/pressure/../version", 2050, 0)].
Proof.
  apply (Monitor_opens_once never_stops
           (mkConfig "../version" StallTypeSome Second Second) 0%nat 3).
  reflexivity.
Defined.

(** In any run, a wait is on the file that was opened, for [EPOLLPRI],
    and without a timeout. *)
Lemma Monitor_trace_polls c cb h o fds timeout :
  Monitor_trace c cb h o ->
  In (fds, timeout) (polls h) ->
  timeout = -1 /\ exists fd, In (opened c (inl fd)) h /\ fds = pollfds fd.
Proof.
  intros H Hin.
  destruct H as [e0 Hc|Hc|e0 Hc|fd' Hc|fd' n e0 Hc|fd' n e0 res Hc
                 |fd' n tr x Hc Ht|fd' n tr x res Hc Ht];
    cbn in Hin; try contradiction.
  - pose proof (loop_trace_polls _ _ _ _ Ht) as Hp.
    rewrite Forall_forall in Hp. apply Hp in Hin. injection Hin as <- <-.
    split; [reflexivity|]. exists fd'. split; [now left | reflexivity].
  - rewrite polls_app, app_nil_r in Hin.
    pose proof (loop_trace_polls _ _ _ _ Ht) as Hp.
    rewrite Forall_forall in Hp. apply Hp in Hin. injection Hin as <- <-.
    split; [reflexivity|]. exists fd'. split; [now left | reflexivity].
Qed.

(** X8. Every wait of [Monitor] is a [Poll] without a timeout (-1) on one
    descriptor, for the event [EPOLLPRI]: the descriptor of the file it
    opened, converted to [int32], which for a descriptor below 2^31 is
    that descriptor itself. *)
Theorem Monitor_waits
    (w : World) (c : Config) (cb : MonitorCallback) (fuel : nat)
    (fds : list PollFd) (timeout : Z) :
  let h := history (run fuel w [] (WithStop.Monitor c cb)) in
  In (fds, timeout) (polls h) ->
  timeout = -1 /\
  exists fd,
    In (opened c (inl fd)) h /\
    fds = [mkPollFd (int32 fd) 2] /\
    (0 <= fd < 2 ^ 31 -> fds = [mkPollFd fd 2]).
Proof.
  cbn zeta. intros Hin.
  pose proof (Monitor_run w c cb fuel) as H. cbn zeta in H.
  destruct (Monitor_trace_polls _ _ _ _ _ _ H Hin) as [Ht (fd & Hfd & ->)].
  split; [exact Ht|]. exists fd. split; [exact Hfd|]. split; [reflexivity|].
  intros Hr. unfold pollfds, int32, EPOLLPRI.
  rewrite Z.mod_small by lia. do 2 f_equal. lia.
Qed.

Lemma Monitor_waits_witness :
  exists fd,
    In (opened example_config (inl fd))
       (history (run 4 never_stops [] (WithStop.Monitor example_config 0%nat))) /\
    [mkPollFd 3 2] = [mkPollFd (int32 fd) 2].
Proof.
  destruct (Monitor_waits never_stops example_config 0%nat 4 [mkPollFd 3 2] (-1))
    as [_ (fd & Hin & E & _)].
  - cbn. now left.
  - exists fd. split; assumption.
Defined.

(** In any run the callback called is the one given, and it is called
    once for each wait that returned without an error. *)
Lemma Monitor_trace_ready c cb h o :
  Monitor_trace c cb h o ->
  (invocations h <= ready h <= S (invocations h))%nat /\
  Forall (eq cb) (invoked h) /\
  (o <> None -> ready h = invocations h).
Proof.
  intros H.
  destruct H as [e0 Hc|Hc|e0 Hc|fd' Hc|fd' n e0 Hc|fd' n e0 res Hc
                 |fd' n tr x Hc Ht|fd' n tr x res Hc Ht];
    cbn; try (repeat split; solve [lia | constructor | congruence]).
  - pose proof (loop_trace_ready _ _ _ _ Ht) as Hr.
    pose proof (loop_trace_invoked _ _ _ _ Ht) as Hi.
    repeat split; try assumption; try congruence; destruct x; lia.
  - pose proof (loop_trace_ready _ _ _ _ Ht) as Hr. cbn in Hr.
    pose proof (loop_trace_invoked _ _ _ _ Ht) as Hi.
    rewrite ready_app, invocations_app, invoked_app, app_nil_r. cbn.
    repeat split; try assumption; lia.
Qed.

(** X9. [Monitor] calls no callback but the one it was given, and calls
    it once for each wait that returned without an error: at any point of
    a run the number of calls is the number of such waits, or one less
    while the call for the last wait is still to come, and it is that
    number exactly when [Monitor] has returned. *)
Theorem Monitor_calls_when_ready
    (w : World) (c : Config) (cb : MonitorCallback) (fuel : nat) :
  let o := run fuel w [] (WithStop.Monitor c cb) in
  (invocations (history o) <= ready (history o) <= S (invocations (history o)))%nat /\
  Forall (eq cb) (invoked (history o)) /\
  (returned o <> None -> ready (history o) = invocations (history o)).
Proof.
  cbn zeta. apply Monitor_trace_ready with (c := c). apply Monitor_run.
Qed.

Lemma Monitor_calls_when_ready_witness :
  ready (history (run 11 stop_on_third_call []
                    (WithStop.Monitor example_config 0%nat))) = 3%nat.
Proof.
  destruct (Monitor_calls_when_ready stop_on_third_call example_config 0%nat 11)
    as (_ & _ & H).
  rewrite H; [reflexivity | discriminate].
Defined.

(** With waits that always return and a callback that always returns
    [nil], the loop does not end, and three more steps are one more
    call. *)
Section KeepsGoing.

Variable w : World.
Variable cb : MonitorCallback.
Variable fd : File.
Hypothesis Hpoll : forall h, snd (w _ h (Poll (pollfds fd) (-1))) = None.
Hypothesis Hcb : forall h, w _ h (Invoke cb) = None.

Lemma loop_round fuel h :
  exists n,
    run (S (S (S fuel))) w h (for_ever (WithStop.Monitor_body fd cb)) =
    run fuel w (h ++ [EvPoll (pollfds fd) (-1) (n, None); EvInvoke cb None])%list
        (for_ever (WithStop.Monitor_body fd cb)).
Proof.
  rewrite run_for_ever, Monitor_body_steps. cbn zeta.
  pose proof (Hpoll h) as Hp.
  destruct (w _ h (Poll (pollfds fd) (-1))) as [n err]. cbn [snd] in *. subst err.
  rewrite Hcb. exists n. now rewrite <- app_assoc.
Qed.

Lemma loop_never_returns fuel h :
  returned (run fuel w h (for_ever (WithStop.Monitor_body fd cb))) = None.
Proof.
  revert h. induction fuel as [fuel IH] using lt_wf_ind. intros h.
  destruct fuel as [|[|[|fuel]]].
  - reflexivity.
  - rewrite run_for_ever, Monitor_body_steps. cbn zeta.
    pose proof (Hpoll h) as Hp.
    destruct (w _ h (Poll (pollfds fd) (-1))) as [n err]. cbn [snd] in *.
    now subst err.
  - rewrite run_for_ever, Monitor_body_steps. cbn zeta.
    pose proof (Hpoll h) as Hp.
    destruct (w _ h (Poll (pollfds fd) (-1))) as [n err]. cbn [snd] in *.
    subst err. now rewrite Hcb.
  - destruct (loop_round fuel h) as [n ->]. apply IH. lia.
Qed.

Lemma loop_calls k h :
  invocations (history (run (3 * k) w h (for_ever (WithStop.Monitor_body fd cb)))) =
  (invocations h + k)%nat.
Proof.
  revert h. induction k as [|k IH]; intros h.
  - cbn [Nat.mul]. rewrite run_for_ever, Monitor_body_steps. cbn. lia.
  - replace (3 * S k)%nat with (S (S (S (3 * k)))) by lia.
    destruct (loop_round (3 * k) h) as [n ->].
    rewrite IH, invocations_app. cbn. lia.
Qed.

End KeepsGoing.

(** X10. [Monitor] does not stop of itself.  With a configuration that
    passes [Check], an open and a write that succeed, waits that always
    return without an error and a callback that always returns [nil], it
    never returns, however long it runs, and the callback is called again
    and again: for every number there is a length of run after which it
    has been called that many times. *)
Theorem Monitor_keeps_going
    (w : World) (c : Config) (cb : MonitorCallback) (fd : File) :
  Check c = None ->
  w _ [] (OpenFile (pressure_path c) (Z.lor O_RDWR O_NONBLOCK) 0) = inl fd ->
  (forall h, snd (w _ h (Write fd (control_line c))) = None) ->
  (forall h, snd (w _ h (Poll (pollfds fd) (-1))) = None) ->
  (forall h, w _ h (Invoke cb) = None) ->
  (forall fuel, returned (run fuel w [] (WithStop.Monitor c cb)) = None) /\
  (forall k, exists fuel,
      invocations (history (run fuel w [] (WithStop.Monitor c cb))) = k).
Proof.
  intros Hc Hopen Hwrite Hpoll Hcb.
  assert (Hsteps : forall fuel,
             run (S (S fuel)) w [] (WithStop.Monitor c cb) =
             let o := run fuel w
                        ([opened c (inl fd)] ++
                         [EvWrite fd (control_line c)
                            (w _ [opened c (inl fd)] (Write fd (control_line c)))])%list
                        (for_ever (WithStop.Monitor_body fd cb)) in
             Outcome (history o) (fuel_left o) None).
  { intros fuel. rewrite (Monitor_steps w c cb _ Hc). cbn zeta. rewrite Hopen.
    fold (opened c (inl fd)).
    rewrite (Hwrite [opened c (inl fd)]).
    pose proof (loop_never_returns w cb fd Hpoll Hcb fuel
                  ([opened c (inl fd)] ++
                   [EvWrite fd (control_line c)
                      (w _ [opened c (inl fd)] (Write fd (control_line c)))])%list)
      as Hn.
    destruct (run fuel w _ (for_ever (WithStop.Monitor_body fd cb)))
      as [h3 fuel3 [x|]]; [discriminate | reflexivity]. }
  split.
  - intros [|[|fuel]].
    + rewrite (Monitor_steps w c cb _ Hc). reflexivity.
    + rewrite (Monitor_steps w c cb _ Hc). cbn zeta. now rewrite Hopen.
    + now rewrite Hsteps.
  - intros k. exists (S (S (3 * k))). rewrite Hsteps. cbn zeta. cbn [history].
    rewrite (loop_calls w cb fd Hpoll Hcb). reflexivity.
Qed.

Lemma Monitor_keeps_going_witness :
  returned (run 1000 never_stops [] (WithStop.Monitor example_config 0%nat)) = None.
Proof.
  apply (Monitor_keeps_going never_stops example_config 0%nat 3);
    reflexivity.
Defined.

(* ===================================================================== *)
(** * Histories and the world                                             *)
(* ===================================================================== *)

Lemma answered_observed (w : World) {X} h (e : psiE X) :
  answered w h (observed e (w _ h e)).
Proof. destruct e; reflexivity. Qed.

Lemma consistent_snoc (w : World) h ev :
  consistent w h -> answered w h ev -> consistent w (h ++ [ev]).
Proof.
  intros Hh Hev h0 ev' h1 E.
  destruct h1 as [|x h1 _] using rev_ind.
  - apply app_inj_tail in E. destruct E as [<- <-]. exact Hev.
  - rewrite app_comm_cons, app_assoc in E.
    apply app_inj_tail in E. destruct E as [E _].
    exact (Hh _ _ _ E).
Qed.

(** A run keeps the history consistent with the world. *)
Lemma run_consistent (w : World) {R} fuel h (t : itree psiE R) :
  consistent w h -> consistent w (history (run fuel w h t)).
Proof.
  revert h t. induction fuel as [|fuel IH]; intros h t Hh; rewrite run_eq.
  - now destruct (observe t).
  - destruct (observe t) as [r|t'|X e k]; cbn [history].
    + exact Hh.
    + now apply IH.
    + apply IH. apply consistent_snoc; [exact Hh | apply answered_observed].
Qed.

Lemma consistent_nil (w : World) : consistent w [].
Proof. intros [|? ?] ev h1 E; discriminate E. Qed.

(** When no call of the callback has returned an error, a [Monitor] that
    has returned has returned an error which the open, the write or a wait
    reported. *)
Lemma Monitor_trace_kernel_error c cb h r :
  Monitor_trace c cb h (Some r) ->
  Check c = None ->
  (forall e, ~ In (EvInvoke cb (Some e)) h) ->
  exists e,
    r = Some e /\
    ((exists name flag perm, In (EvOpenFile name flag perm (inr e)) h) \/
     (exists fd b n, In (EvWrite fd b (n, Some e)) h) \/
     (exists fds timeout n, In (EvPoll fds timeout (n, Some e)) h)).
Proof.
  intros H Hc Hcb. remember (Some r) as o eqn:Eo.
  destruct H as [e0 Hc'|Hc'|e0 Hc'|fd' Hc'|fd' n e0 Hc'|fd' n e0 res Hc'
                 |fd' n tr x Hc' Ht|fd' n tr x res Hc' Ht];
    try discriminate; injection Eo as <-.
  - congruence.
  - exists e0. split; [reflexivity|]. left. unfold opened. eauto 6 with datatypes.
  - exists e0. split; [reflexivity|]. right; left. unfold written.
    exists fd', (control_line c), n. right; now left.
  - destruct (loop_trace_last _ _ _ _ Ht) as (tr0 & ev & -> & _ & Hev).
    assert (Hin : In ev (opened c (inl fd') :: written c fd' (n, None)
                         :: (tr0 ++ [ev]) ++ [EvClose fd' res])%list).
    { right; right. apply in_or_app. left. apply in_or_app. right. now left. }
    destruct Hev as [(m & e & -> & ->)|[[-> ->]|(e & Hne & -> & ->)]].
    + exists e. split; [reflexivity|]. right; right. eauto.
    + destruct (Hcb _ Hin).
    + destruct (Hcb _ Hin).
Qed.

(** [main] runs [Monitor] and turns what it returns into how the program
    ends. *)
Lemma main_run (w : World) fuel :
  run fuel w [] main =
  let o := run fuel w []
             (WithStop.Monitor
                (mkConfig ResourceCPU StallTypeSome (Z.quot Second 10) Second)
                main_callback) in
  Outcome (history o) (fuel_left o)
    (option_map (fun r => match r with
                          | Some e => Panicked e
                          | None => Exited
                          end) (returned o)).
Proof.
  unfold main. rewrite run_bind. cbn zeta.
  destruct (run fuel w [] _) as [h f [[e|]|]]; cbn [option_map history fuel_left];
    try rewrite run_Ret; reflexivity.
Qed.

(** X11. The example program never ends normally.  Its closure always
    returns [nil], so whenever [main] has ended it has panicked, and with
    an error which the open of "/proc/pressure/cpu", the write of the
    control line or a wait reported: its configuration passes [Check],
    and [Monitor] returns [nil] only when asked to stop. *)
Theorem main_ends_in_panic (w : World) (fuel : nat) (st : exit_status) :
  answers_as_main w ->
  returned (run fuel w [] main) = Some st ->
  let h := history (run fuel w [] main) in
  exists e,
    st = Panicked e /\
    ((exists name flag perm, In (EvOpenFile name flag perm (inr e)) h) \/
     (exists fd b n, In (EvWrite fd b (n, Some e)) h) \/
     (exists fds timeout n, In (EvPoll fds timeout (n, Some e)) h)).
Proof.
  intros Hw. rewrite main_run. cbn zeta. cbn [history returned]. intros Hr.
  set (c := mkConfig ResourceCPU StallTypeSome (Z.quot Second 10) Second) in *.
  pose proof (Monitor_run w c main_callback fuel) as H. cbn zeta in H.
  pose proof (run_consistent w fuel [] (WithStop.Monitor c main_callback)
                (consistent_nil w)) as Hcons.
  destruct (returned (run fuel w [] (WithStop.Monitor c main_callback)))
    as [r|]; [|discriminate].
  destruct (Monitor_trace_kernel_error _ _ _ _ H eq_refl) as (e & -> & He).
  - intros e Hin. apply in_split in Hin. destruct Hin as (h0 & h1 & E).
    specialize (Hcons _ _ _ E). cbn in Hcons. rewrite (Hw h0) in Hcons.
    discriminate.
  - exists e. split; [now injection Hr as <- | exact He].
Qed.

Lemma main_ends_in_panic_witness :
  exists e, Panicked (PathError "open" "/proc/pressure/cpu" 2) = Panicked e.
Proof.
  destruct (main_ends_in_panic open_fails 1
              (Panicked (PathError "open" "/proc/pressure/cpu" 2)))
    as (e & E & _).
  - intros h. reflexivity.
  - reflexivity.
  - exists e. exact E.
Defined.

(* ===================================================================== *)
(** * More about [Check] and the control line                             *)
(* ===================================================================== *)

(** X12. [Check] accepts a configuration exactly when its WindowDuration
    lies between 500ms and 10s and its StallWindowDuration between 50ms
    and 1s, the four bounds included. *)
Theorem Check_None_iff (c : Config) :
  Check c = None <->
  Millisecond * 500 <= WindowDuration c <= Second * 10 /\
  Millisecond * 50 <= StallWindowDuration c <= Second.
Proof.
  split.
  - apply Check_None_bounds.
  - intros [Hw Hs]. bounds.
Qed.

Lemma string_of_uint_digits d :
  string_forall is_digit (NilEmpty.string_of_uint d) = true.
Proof. induction d; cbn; auto. Qed.

(** A formatted integer that is not negative is made of digits. *)
Lemma FormatInt_digits z : 0 <= z -> string_forall is_digit (FormatInt z) = true.
Proof.
  intros Hz. unfold FormatInt. destruct z as [|p|p]; [reflexivity| |lia].
  cbn [Z.to_int NilZero.string_of_int]. unfold NilZero.string_of_uint.
  destruct (Pos.to_uint p); first [reflexivity | apply string_of_uint_digits].
Qed.

(** X13. What [Monitor] writes after a successful [Check] is within the
    bounds in microseconds: the first number of the control line lies
    between 50000 and 1000000, the second between 500000 and 10000000,
    and both are printed with digits only, without a sign. *)
Theorem control_line_numbers (c : Config) :
  Check c = None ->
  let stall := Microseconds (StallWindowDuration c) in
  let window := Microseconds (WindowDuration c) in
  50000 <= stall <= 1000000 /\
  500000 <= window <= 10000000 /\
  string_forall is_digit (FormatInt stall) = true /\
  string_forall is_digit (FormatInt window) = true.
Proof.
  intros Hc. cbn zeta.
  destruct (Check_None_bounds c Hc) as [Hw Hs].
  unfold Second, Millisecond, Microsecond, Nanosecond in Hw, Hs.
  pose proof (Microseconds_truncates (StallWindowDuration c) ltac:(lia)) as Ts.
  pose proof (Microseconds_truncates (WindowDuration c) ltac:(lia)) as Tw.
  repeat split; try lia; apply FormatInt_digits; lia.
Qed.

Lemma control_line_numbers_witness :
  50000 <= Microseconds (Millisecond * 50 + 999) <= 1000000.
Proof.
  apply (control_line_numbers
           (mkConfig ResourceIO StallTypeFull (Millisecond * 50 + 999) (Second * 10))).
  reflexivity.
Defined.
